(** * Moodyssey: persistence, authentication and mood categories

    A shallow embedding of [src/main.py]: the [MoodEntry] class, the
    [DataManager] hierarchy ([UserDataManager], [MoodEntriesDataManager]),
    the submit handler of [mood_input_page] and [get_mood_category],
    together with the properties the specification states about them.

    Python values that travel through [json.load] / [json.dump] are modelled
    by [pyval]; exceptions by [outcome]; the file system and the Streamlit
    calls by an explicit [world] threaded through a state-and-exception
    monad [io]. *)

From stdpp Require Import gmap strings list.
From Stdlib Require Import ZArith Ascii String Sorted.

Set Warnings "-register-all".

Local Open Scope string_scope.
Local Open Scope Z_scope.

(** ** Python values and exceptions *)

(** The exceptions the modelled code can raise.  The message of a
    [ValueError] is exact for the one [MoodEntry.__init__] raises itself and
    abbreviated for those a library raises; a [KeyError] carries its key. *)
Inductive exn :=
  | ValueError (msg : string)
  | KeyError (key : string)
  | TypeError
  | AttributeError.

Inductive outcome (A : Type) :=
  | Return (a : A)
  | Raise (e : exn).
Arguments Return {A} a.
Arguments Raise {A} e.

#[global] Instance outcome_ret : MRet outcome := @Return.
#[global] Instance outcome_bind : MBind outcome := fun A B f m =>
  match m with
  | Return a => f a
  | Raise e => Raise e
  end.

(** The values [json.load] produces: [None], [bool], [int], [float] (a finite
    binary float [m * 2^e]), [str], [list] and [dict] with [str] keys, the
    items of a [dict] in insertion order. *)
Inductive pyval :=
  | PyNone
  | PyBool (b : bool)
  | PyInt (n : Z)
  | PyFloat (m e : Z)
  | PyStr (s : string)
  | PyList (l : list pyval)
  | PyDict (d : list (string * pyval)).

(** [d[key]] on the items of a dict. *)
Fixpoint dict_get (d : list (string * pyval)) (key : string) : option pyval :=
  match d with
  | [] => None
  | (k, v) :: d' => if String.eqb k key then Some v else dict_get d' key
  end.

(** [d[key] = v]: an existing key keeps its position, a new one goes last. *)
Fixpoint dict_set (d : list (string * pyval)) (key : string) (v : pyval)
  : list (string * pyval) :=
  match d with
  | [] => [(key, v)]
  | (k, x) :: d' =>
      if String.eqb k key then (k, v) :: d' else (k, x) :: dict_set d' key v
  end.

(** [bool(v)]. *)
Definition truthy (v : pyval) : bool :=
  match v with
  | PyNone => false
  | PyBool b => b
  | PyInt n => negb (n =? 0)
  | PyFloat m _ => negb (m =? 0)
  | PyStr s => negb (String.eqb s "")
  | PyList l => match l with [] => false | _ => true end
  | PyDict d => match d with [] => false | _ => true end
  end.

(** [s.startswith(pre)]. *)
Fixpoint startswith (s pre : string) {struct pre} : bool :=
  match pre with
  | EmptyString => true
  | String a pre' =>
      match s with
      | EmptyString => false
      | String b s' => Ascii.eqb a b && startswith s' pre'
      end
  end.

(** [sub in s] for two strings. *)
Fixpoint str_contains (sub s : string) : bool :=
  startswith s sub ||
  match s with
  | EmptyString => false
  | String _ s' => str_contains sub s'
  end.

(** [key in v] for a string [key]. *)
Definition py_contains (v : pyval) (key : string) : outcome bool :=
  match v with
  | PyDict d => Return (bool_decide (is_Some (dict_get d key)))
  | PyList l =>
      Return (existsb (fun x => match x with
                                | PyStr s => String.eqb s key
                                | _ => false
                                end) l)
  | PyStr s => Return (str_contains key s)
  | _ => Raise TypeError
  end.

(** [v[key]] for a string [key]. *)
Definition py_getitem (v : pyval) (key : string) : outcome pyval :=
  match v with
  | PyDict d =>
      match dict_get d key with
      | Some x => Return x
      | None => Raise (KeyError key)
      end
  | _ => Raise TypeError
  end.

(** [v.get(key)]. *)
Definition py_get (v : pyval) (key : string) : outcome pyval :=
  match v with
  | PyDict d => Return (default PyNone (dict_get d key))
  | _ => Raise AttributeError
  end.

(** [v[key] = x] for a string [key]. *)
Definition py_setitem (v : pyval) (key : string) (x : pyval) : outcome pyval :=
  match v with
  | PyDict d => Return (PyDict (dict_set d key x))
  | _ => Raise TypeError
  end.

(** [v.encode('utf-8')]: only [str] has the method. *)
Definition py_encode (v : pyval) : outcome string :=
  match v with
  | PyStr s => Return s
  | _ => Raise AttributeError
  end.

(** The string stored under [key] in the dict [v], if there is one. *)
Definition dict_get_str (v : pyval) (key : string) : option string :=
  match v with
  | PyDict d =>
      match dict_get d key with
      | Some (PyStr s) => Some s
      | _ => None
      end
  | _ => None
  end.

(** The items a [for] loop or a comprehension draws from [v]. *)
Definition py_iter (v : pyval) : outcome (list pyval) :=
  match v with
  | PyList l => Return l
  | PyDict d => Return (map (fun kv => PyStr (fst kv)) d)
  | PyStr s =>
      Return (map (fun c => PyStr (String c EmptyString)) (list_ascii_of_string s))
  | _ => Raise TypeError
  end.

(** [[f(x) for x in l]]: the first exception stops the comprehension. *)
Fixpoint comprehension {A B} (f : A -> outcome B) (l : list A) : outcome (list B) :=
  match l with
  | [] => Return []
  | x :: l' =>
      y ← f x;
      ys ← comprehension f l';
      Return (y :: ys)
  end.

(** ** [datetime]: naive timestamps, [isoformat] and [fromisoformat] *)

Record datetime := {
  year : Z;
  month : Z;
  day : Z;
  hour : Z;
  minute : Z;
  second : Z;
  microsecond : Z
}.

Definition is_leap (y : Z) : bool :=
  (y mod 4 =? 0) && (negb (y mod 100 =? 0) || (y mod 400 =? 0)).

Definition days_in_month (y m : Z) : Z :=
  if m =? 2 then (if is_leap y then 29 else 28)
  else if (m =? 4) || (m =? 6) || (m =? 9) || (m =? 11) then 30
  else 31.

(** The range checks of the [datetime] constructor. *)
Definition datetime_ok (t : datetime) : bool :=
  (1 <=? year t) && (year t <=? 9999) &&
  (1 <=? month t) && (month t <=? 12) &&
  (1 <=? day t) && (day t <=? days_in_month (year t) (month t)) &&
  (0 <=? hour t) && (hour t <=? 23) &&
  (0 <=? minute t) && (minute t <=? 59) &&
  (0 <=? second t) && (second t <=? 59) &&
  (0 <=? microsecond t) && (microsecond t <=? 999999).

Definition digit (d : Z) : ascii := ascii_of_N (Z.to_N (48 + d)).

(** ["%0wd" % n] for [0 <= n < 10^w]. *)
Fixpoint zfill (w : nat) (n : Z) : list ascii :=
  match w with
  | O => []
  | S w' => zfill w' (n / 10) ++ [digit (n mod 10)]
  end.

(** [isoformat()] of a naive datetime: [YYYY-MM-DDTHH:MM:SS], followed by
    [.ffffff] when the microseconds are not zero. *)
Definition isoformat (t : datetime) : string :=
  string_of_list_ascii
    (zfill 4 (year t) ++ "-"%char :: zfill 2 (month t) ++ "-"%char ::
     zfill 2 (day t) ++ "T"%char :: zfill 2 (hour t) ++ ":"%char ::
     zfill 2 (minute t) ++ ":"%char :: zfill 2 (second t) ++
     (if microsecond t =? 0 then [] else "."%char :: zfill 6 (microsecond t))).

Definition digit_val (c : ascii) : option Z :=
  let n := Z.of_N (N_of_ascii c) in
  if (48 <=? n) && (n <=? 57) then Some (n - 48) else None.

(** The number a run of decimal digits denotes; [None] when a character is
    not a digit. *)
Definition number (cs : list ascii) : option Z :=
  foldl (fun acc c => a ← acc; d ← digit_val c; Some (10 * a + d)) (Some 0) cs.

Definition invalid_isoformat {A} : outcome A :=
  Raise (ValueError "Invalid isoformat string").

Definition checked (t : option datetime) : outcome datetime :=
  match t with
  | Some t => if datetime_ok t then Return t else invalid_isoformat
  | None => invalid_isoformat
  end.

(** [datetime.fromisoformat] on the two layouts [isoformat] writes for a naive
    datetime (any character may separate date and time).  Strings of another
    layout are rejected here; newer interpreters also read further ISO 8601
    layouts, and no statement below depends on how those are treated. *)
Definition fromisoformat (v : pyval) : outcome datetime :=
  match v with
  | PyStr s =>
      match list_ascii_of_string s with
      | [y1; y2; y3; y4; "-"; m1; m2; "-"; d1; d2; _;
         h1; h2; ":"; mi1; mi2; ":"; s1; s2]%char =>
          checked (y ← number [y1; y2; y3; y4]; m ← number [m1; m2];
                   d ← number [d1; d2]; h ← number [h1; h2];
                   mi ← number [mi1; mi2]; sc ← number [s1; s2];
                   Some {| year := y; month := m; day := d; hour := h;
                           minute := mi; second := sc; microsecond := 0 |})
      | [y1; y2; y3; y4; "-"; m1; m2; "-"; d1; d2; _;
         h1; h2; ":"; mi1; mi2; ":"; s1; s2; "."; f1; f2; f3; f4; f5; f6]%char =>
          checked (y ← number [y1; y2; y3; y4]; m ← number [m1; m2];
                   d ← number [d1; d2]; h ← number [h1; h2];
                   mi ← number [mi1; mi2]; sc ← number [s1; s2];
                   us ← number [f1; f2; f3; f4; f5; f6];
                   Some {| year := y; month := m; day := d; hour := h;
                           minute := mi; second := sc; microsecond := us |})
      | _ => invalid_isoformat
      end
  | _ => Raise TypeError
  end.

(** ** [MoodEntry] *)

Record MoodEntry := {
  mood : string;
  note : pyval;
  timestamp : datetime
}.

(** [MoodEntry.__init__(mood, note, timestamp)] with a timestamp given.  The
    default of a missing timestamp, [datetime.utcnow()], is evaluated by the
    caller (see [submit_mood]). *)
Definition MoodEntry_init (mood note : pyval) (timestamp : datetime)
  : outcome MoodEntry :=
  match mood with
  | PyStr s =>
      if String.eqb s "" then Raise (ValueError "Mood must be a non-empty string.")
      else Return {| mood := s; note := note; timestamp := timestamp |}
  | _ => Raise (ValueError "Mood must be a non-empty string.")
  end.

Definition to_dict (e : MoodEntry) : pyval :=
  PyDict [("mood", PyStr (mood e));
          ("note", note e);
          ("timestamp", PyStr (isoformat (timestamp e)))].

Definition from_dict (data : pyval) : outcome MoodEntry :=
  raw ← py_getitem data "timestamp";
  timestamp ← fromisoformat raw;
  m ← py_getitem data "mood";
  n ← py_get data "note";
  MoodEntry_init m n timestamp.

(** ** Mood categories *)

Definition MOOD_CATEGORIES : list (string * list string) :=
  [("Positive", ["Happy"; "Excited"]);
   ("Neutral", ["Neutral"]);
   ("Negative", ["Sad"; "Angry"; "Anxious"; "Tired"])].

(** The loop of [get_mood_category] over the items of a dict. *)
Fixpoint category_scan (items : list (string * list string)) (mood : string)
  : string :=
  match items with
  | [] => "Unknown"
  | (category, moods) :: rest =>
      if existsb (String.eqb mood) moods then category
      else category_scan rest mood
  end.

Definition get_mood_category (mood : string) : string :=
  category_scan MOOD_CATEGORIES mood.

(** ** The world: files and Streamlit calls *)

(** A file is represented by what [open] and [json.load] make of it:
    zero-length; text that [json.load] rejects with a [JSONDecodeError] or
    another [ValueError] of text [err]; a file whose reading raises another
    exception of text [err]; or text that [json.load] decodes to [v]. *)
Inductive file :=
  | Blank
  | Malformed (err : string)
  | Unreadable (err : string)
  | Document (v : pyval).

Inductive st_call :=
  | st_warning (msg : string)
  | st_error (msg : string)
  | st_success (msg : string)
  | st_info (msg : string)
  | st_rerun.

(** [page] is [st.session_state.page]; [ui] lists the Streamlit calls made so
    far, oldest first. *)
Record world := {
  files : gmap string file;
  ui : list st_call;
  page : string
}.

Definition io (A : Type) : Type := world -> outcome A * world.

#[global] Instance io_ret : MRet io := fun A a w => (Return a, w).
#[global] Instance io_bind : MBind io := fun A B f m w =>
  match m w with
  | (Return a, w') => f a w'
  | (Raise e, w') => (Raise e, w')
  end.

Definition lift {A} (o : outcome A) : io A := fun w => (o, w).

(** The world after one more Streamlit call, and after a file was replaced. *)
Definition report (c : st_call) (w : world) : world :=
  {| files := files w; ui := ui w ++ [c]; page := page w |}.

Definition with_file (path : string) (f : file) (w : world) : world :=
  {| files := <[path := f]> (files w); ui := ui w; page := page w |}.

Definition st (c : st_call) : io unit := fun w => (Return tt, report c w).

Definition set_page (p : string) : io unit := fun w =>
  (Return tt, {| files := files w; ui := ui w; page := p |}).

(** The file at [path], if there is one. *)
Definition read_file (path : string) : io (option file) := fun w =>
  (Return (files w !! path), w).

Definition write_file (path : string) (f : file) : io unit := fun w =>
  (Return tt, with_file path f w).

(** What is left in a file that [open(path, "w")] has truncated when
    [json.dump] fails: nothing, or the beginning of the text, which
    [json.load] rejects with an error of text [err]. *)
Inductive residue :=
  | NothingWritten
  | PartlyWritten (err : string).

Definition residue_file (r : residue) : file :=
  match r with
  | NothingWritten => Blank
  | PartlyWritten err => Malformed err
  end.

(** How the operating system answers one [open(path, "w")] followed by
    [json.dump]: both succeed; [open] raises an exception of text [err]; or
    [open] succeeds and the write raises. *)
Inductive write_outcome :=
  | WriteOk
  | OpenFails (err : string)
  | DumpFails (err : string) (rest : residue).

(** ** [DataManager] *)

Definition load_warning (path err : string) : st_call :=
  st_warning ("Corrupted or empty data file '" +:+ path +:+
              "'. Starting fresh. Error: " +:+ err).

Definition load_error (path err : string) : st_call :=
  st_error ("An unexpected error occurred loading data from '" +:+ path +:+
            "': " +:+ err).

Definition _load_raw_data (path : string) : io pyval :=
  f ← read_file path;
  match f with
  | None | Some Blank => mret (PyDict [])
  | Some (Document v) => mret v
  | Some (Malformed e) => st (load_warning path e);; mret (PyDict [])
  | Some (Unreadable e) => st (load_error path e);; mret (PyDict [])
  end.

Definition save_error (path err : string) : st_call :=
  st_error ("Error saving data to '" +:+ path +:+ "': " +:+ err).

Definition _save_raw_data (os : write_outcome) (path : string) (data : pyval)
  : io bool :=
  match os with
  | WriteOk => write_file path (Document data);; mret true
  | OpenFails e => st (save_error path e);; mret false
  | DumpFails e rest =>
      write_file path (residue_file rest);;
      st (save_error path e);;
      mret false
  end.

(** ** [UserDataManager] *)

(** The two functions of the [bcrypt] library that are called:
    [hashpw password salt] and [checkpw password hashed].  Both raise
    [ValueError] on input the library refuses: a salt or a hash that is not
    one of its own and, since release 5.0, a password longer than 72
    bytes. *)
Class Bcrypt := {
  hashpw : string -> string -> outcome string;
  checkpw : string -> string -> outcome bool
}.

Definition users_json : string := "users.json".

Section UserDataManager.
Context `{Bcrypt}.

Definition UserDataManager_load : io pyval := _load_raw_data users_json.

Definition UserDataManager_save (os : write_outcome) (users : pyval) : io bool :=
  _save_raw_data os users_json users.

(** [salt] is the value of [bcrypt.gensalt()] in this call and [os] the
    answer of the operating system to its write. *)
Definition register_user (salt : string) (os : write_outcome)
    (username password : string) : io (bool * string) :=
  users ← UserDataManager_load;
  present ← lift (py_contains users username);
  if (present : bool) then mret (false, "Username already exists.")
  else
    hashed_pass ← lift (hashpw password salt);
    users ← lift (py_setitem users username
                    (PyDict [("hashed_password", PyStr hashed_pass)]));
    saved ← UserDataManager_save os users;
    if (saved : bool)
    then mret (true, "Account created successfully! You can now log in.")
    else mret (false, "Failed to create account due to a saving error.").

Definition authenticate_user (username password : string) : io (bool * string) :=
  users ← UserDataManager_load;
  present ← lift (py_contains users username);
  if negb present then mret (false, "Username not found.")
  else
    account ← lift (py_getitem users username);
    stored ← lift (py_getitem account "hashed_password");
    hashed ← lift (py_encode stored);
    ok ← lift (checkpw password hashed);
    if (ok : bool) then mret (true, "Logged in successfully!")
    else mret (false, "Incorrect password.").
End UserDataManager.

(** ** [MoodEntriesDataManager] *)

Definition mood_entries_json (username : string) : string :=
  "mood_entries_" +:+ username +:+ ".json".

Definition MoodEntriesDataManager_load (username : string) : io (list MoodEntry) :=
  raw_entries ← _load_raw_data (mood_entries_json username);
  if truthy raw_entries
  then lift (entries ← py_iter raw_entries; comprehension from_dict entries)
  else mret [].

Definition MoodEntriesDataManager_save (os : write_outcome) (username : string)
    (entries : list MoodEntry) : io bool :=
  _save_raw_data os (mood_entries_json username) (PyList (map to_dict entries)).

(** ** The submit handler of [mood_input_page] *)

(** [c.isspace()] for a character, read as a code point below 256. *)
Definition isspace (c : ascii) : bool :=
  let n := Z.of_N (N_of_ascii c) in
  ((9 <=? n) && (n <=? 13)) || ((28 <=? n) && (n <=? 32)) ||
  (n =? 133) || (n =? 160).

(** [note if note.strip() else None]. *)
Definition note_or_none (note : string) : pyval :=
  if forallb isspace (list_ascii_of_string note) then PyNone else PyStr note.

(** The body of [if st.button("Submit Mood")], for the user [username] of the
    session; [now] is the value of [datetime.utcnow()] in this call.  The
    result tells which branch of the [if] on [save] was taken. *)
Definition submit_mood (now : datetime) (os : write_outcome)
    (username mood note : string) : io bool :=
  new_entry ← lift (MoodEntry_init (PyStr mood) (note_or_none note) now);
  all_entries ← MoodEntriesDataManager_load username;
  let all_entries := (all_entries ++ [new_entry])%list in
  saved ← MoodEntriesDataManager_save os username all_entries;
  if (saved : bool) then
    st (st_success "Mood logged successfully!");;
    st (st_info "You can now view your updated dashboard.");;
    set_page "dashboard";;
    st st_rerun;;
    mret true
  else
    st (st_error "Failed to save mood.");;
    mret false.

(** ** Vocabulary of the statements *)

(** What the hash library is relied on to do: [checkpw] accepts the password
    a hash was made from, and it raises nothing when it is given a hash that
    [hashpw] made and a password that [hashpw] takes.  Nothing is assumed
    about the other passwords a hash accepts. *)
Class BcryptLaws `{Bcrypt} : Prop := {
  checkpw_own : forall password salt hashed,
    hashpw password salt = Return hashed ->
    checkpw password hashed = Return true;
  checkpw_returns : forall password salt hashed attempt salt' hashed',
    hashpw password salt = Return hashed ->
    hashpw attempt salt' = Return hashed' ->
    exists accepted, checkpw attempt hashed = Return accepted
}.

(** The longest password, in bytes, that bcrypt 5 takes. *)
Definition password_limit : nat := 72.

Definition too_long {A} : outcome A :=
  Raise (ValueError "password cannot be longer than 72 bytes").

(** A stand-in for the library, to run the model on concrete inputs.  It keeps
    what the documentation of bcrypt 5 says about the inputs the library
    refuses: a password longer than 72 bytes, in [hashpw] and in [checkpw],
    and a stored hash that is not one of its own. *)
Definition plain_hashpw (password salt : string) : outcome string :=
  if (password_limit <? String.length password)%nat then too_long
  else Return ("$plain$" +:+ password).

Definition plain_checkpw (password hashed : string) : outcome bool :=
  if (password_limit <? String.length password)%nat then too_long
  else if startswith hashed "$plain$"
  then Return (String.eqb hashed ("$plain$" +:+ password))
  else Raise (ValueError "Invalid salt").

Definition plain_bcrypt : Bcrypt :=
  {| hashpw := plain_hashpw; checkpw := plain_checkpw |}.

(** A record as the constructor and [fromisoformat] leave it: the mood is not
    empty and the timestamp is a date and time that exist. *)
Definition entry_ok (e : MoodEntry) : Prop :=
  mood e <> "" /\ datetime_ok (timestamp e) = true.

(** The account record stored under [username], when the account file holds a
    table. *)
Definition stored_account (w : world) (username : string) : option pyval :=
  match files w !! users_json with
  | Some (Document (PyDict d)) => dict_get d username
  | _ => None
  end.

(** The account a registration writes for the hash [hashed]. *)
Definition account_of (hashed : string) : pyval :=
  PyDict [("hashed_password", PyStr hashed)].

(** A string that [hashpw] returned for some password and salt. *)
Definition made_by_hashpw `{Bcrypt} (hashed : string) : Prop :=
  exists password salt, hashpw password salt = Return hashed.

(** A well-formed account table: a dict whose values are dicts with a
    [hashed_password] that [hashpw] made. *)
Definition wf_accounts `{Bcrypt} (users : pyval) : Prop :=
  exists d, users = PyDict d /\
    Forall (fun kv => exists hashed,
              dict_get_str (snd kv) "hashed_password" = Some hashed /\
              made_by_hashpw hashed) d.

(** The account file is absent, empty, not decodable, not readable, or holds
    a well-formed table. *)
Definition wf_store `{Bcrypt} (w : world) : Prop :=
  match files w !! users_json with
  | Some (Document users) => wf_accounts users
  | _ => True
  end.

(** The record the submit handler builds from its inputs. *)
Definition entry_of (mood note : string) (now : datetime) : MoodEntry :=
  {| mood := mood; note := note_or_none note; timestamp := now |}.

(** What [_load_raw_data] returns in [w], and the world it leaves. *)
Definition loaded (path : string) (w : world) : pyval :=
  match files w !! path with
  | Some (Document v) => v
  | _ => PyDict []
  end.

Definition after_load (path : string) (w : world) : world :=
  match files w !! path with
  | Some (Malformed e) => report (load_warning path e) w
  | Some (Unreadable e) => report (load_error path e) w
  | _ => w
  end.



(** The moods offered by the select box of [mood_input_page]. *)
Definition mood_options : list string :=
  ["Happy"; "Neutral"; "Sad"; "Angry"; "Anxious"; "Tired"; "Excited"].

(** A save is atomic for its caller when the file afterwards holds either
    what it held before or the whole new document. *)
Definition atomic_write (path : string) (data : pyval) (before after : world) : Prop :=
  files after !! path = files before !! path \/
  files after !! path = Some (Document data).

(** ** Sample data *)

Definition new_year : datetime :=
  {| year := 2024; month := 1; day := 1; hour := 9; minute := 30;
     second := 0; microsecond := 0 |}.

Definition leap_day : datetime :=
  {| year := 2024; month := 2; day := 29; hour := 18; minute := 5;
     second := 9; microsecond := 250000 |}.

Definition spring_day : datetime :=
  {| year := 2024; month := 3; day := 21; hour := 7; minute := 0;
     second := 59; microsecond := 1 |}.

Definition happy_entry : MoodEntry :=
  {| mood := "Happy"; note := PyNone; timestamp := new_year |}.

Definition tired_entry : MoodEntry :=
  {| mood := "Tired"; note := PyStr "long day"; timestamp := leap_day |}.

(** No file yet, the mood page open. *)
Definition fresh_world : world :=
  {| files := ∅; ui := []; page := "mood_input" |}.

(** The record file of alice holds [docu]. *)
Definition alice_world (docu : file) : world :=
  {| files := {[ mood_entries_json "alice" := docu ]}; ui := [];
     page := "dashboard" |}.

(** A password of 73 bytes. *)
Definition long_password : string :=
  string_of_list_ascii (repeat "a"%char 73).

(** The table in which bob is registered with the password "secret123", as
    the stand-in library writes it. *)
Definition bob_table : pyval :=
  PyDict [("bob", account_of "$plain$secret123")].

(** The account file holds [docu]. *)
Definition users_world (docu : file) : world :=
  {| files := {[ users_json := docu ]}; ui := []; page := "login" |}.

(** ** Session state, page routing and the form handlers *)

(** [st.session_state.logged_in] and [st.session_state.username]; the third
    key, [page], is the [page] of the [world]. *)
Record session_state := {
  logged_in : bool;
  session_username : option string
}.

(** The values the script gives the keys when they are missing. *)
Definition initial_session : session_state :=
  {| logged_in := false; session_username := None |}.

(** The page functions the routing logic chooses from. *)
Inductive page_function :=
  | home_page
  | login_page
  | signup_page
  | welcome_authenticated_page
  | mood_input_page
  | dashboard_page.

(** [st.session_state.page]. *)
Definition get_page : io string := fun w => (Return (page w), w).

(** The routing logic at the end of the script: the page function it calls,
    or [None] after it has reset the page and called [st.rerun()]. *)
Definition route (s : session_state) : io (option page_function) :=
  current ← get_page;
  if logged_in s then
    if String.eqb current "welcome_authenticated"
    then mret (Some welcome_authenticated_page)
    else if String.eqb current "mood_input" then mret (Some mood_input_page)
    else if String.eqb current "dashboard" then mret (Some dashboard_page)
    else set_page "welcome_authenticated";; st st_rerun;; mret None
  else
    if String.eqb current "home" then mret (Some home_page)
    else if String.eqb current "login" then mret (Some login_page)
    else if String.eqb current "signup" then mret (Some signup_page)
    else set_page "home";; st st_rerun;; mret None.

(** The callback of the "Logout" button of [add_sidebar_elements]. *)
Definition logout : io session_state :=
  set_page "home";;
  st st_rerun;;
  mret {| logged_in := false; session_username := None |}.

Section Forms.
Context `{Bcrypt}.

(** The body of [if st.button("Login")] in [login_page], for the values of
    the two text inputs; the result is the session state it leaves. *)
Definition login_submit (username password : string) (s : session_state)
  : io session_state :=
  '(success, message) ← authenticate_user username password;
  if (success : bool) then
    set_page "welcome_authenticated";;
    st (st_success message);;
    st st_rerun;;
    mret {| logged_in := true; session_username := Some username |}
  else
    st (st_error message);;
    mret s.

(** The body of [if st.button("Create Account")] in [signup_page], for the
    values of the three text inputs. *)
Definition signup_submit (salt : string) (os : write_outcome)
    (new_username new_password confirm_password : string) : io unit :=
  if String.eqb new_username "" || String.eqb new_password "" ||
     String.eqb confirm_password ""
  then st (st_warning "Please fill in all fields.")
  else if negb (String.eqb new_password confirm_password)
  then st (st_error "Passwords do not match.")
  else
    '(success, message) ← register_user salt os new_username new_password;
    if (success : bool) then
      st (st_success message);;
      set_page "login";;
      st st_rerun
    else st (st_error message).
End Forms.

(** The two keys of the session agree: a user is logged in exactly when a
    username is set. *)
Definition session_ok (s : session_state) : Prop :=
  logged_in s = true <-> is_Some (session_username s).

(** The name of a page function, as the routing logic compares it. *)
Definition page_name (f : page_function) : string :=
  match f with
  | home_page => "home"
  | login_page => "login"
  | signup_page => "signup"
  | welcome_authenticated_page => "welcome_authenticated"
  | mood_input_page => "mood_input"
  | dashboard_page => "dashboard"
  end.

(** The page functions for the logged-in user. *)
Definition protected_page (f : page_function) : bool :=
  match f with
  | welcome_authenticated_page | mood_input_page | dashboard_page => true
  | _ => false
  end.

(** ** File names *)

(** The files of the [world] are told apart by their names as written.  That
    is how the operating system treats the names the code builds as long as a
    username holds no path separator (and the file system distinguishes upper
    and lower case); [path_free] is the first condition. *)
Definition path_free (username : string) : bool :=
  negb (existsb (fun c => Ascii.eqb c "/" || Ascii.eqb c "\")
          (list_ascii_of_string username)).

(** ** The order of the history table *)

(** The fields Python compares two naive datetimes by, most significant
    first. *)
Definition datetime_fields (t : datetime) : list Z :=
  [year t; month t; day t; hour t; minute t; second t; microsecond t].

(** [a < b] for two tuples of integers. *)
Fixpoint tuple_ltb (a b : list Z) : bool :=
  match a, b with
  | x :: a', y :: b' => (x <? y) || ((x =? y) && tuple_ltb a' b')
  | [], _ :: _ => true
  | _, [] => false
  end.

Definition datetime_ltb (t1 t2 : datetime) : bool :=
  tuple_ltb (datetime_fields t1) (datetime_fields t2).

(** One step of a stable sort, newest first: [e], which came before all of
    [sorted] in the list, goes behind the entries that are strictly newer. *)
Fixpoint insert_newest_first (e : MoodEntry) (sorted : list MoodEntry)
  : list MoodEntry :=
  match sorted with
  | [] => [e]
  | e' :: rest =>
      if datetime_ltb (timestamp e) (timestamp e')
      then e' :: insert_newest_first e rest
      else e :: sorted
  end.

(** [all_entries.sort(key=lambda e: e.timestamp, reverse=True)] of
    [dashboard_page]: Python's sort is stable, also with [reverse=True], and
    a stable sort has one result. *)
Definition sort_newest_first (all_entries : list MoodEntry) : list MoodEntry :=
  foldr insert_newest_first [] all_entries.

#[global] Instance datetime_eq_dec : EqDecision datetime.
Proof. solve_decision. Defined.

(** * Properties *)

(** ** Timestamps survive [isoformat] and [fromisoformat] *)

Lemma digit_val_digit (d : Z) : 0 <= d <= 9 -> digit_val (digit d) = Some d.
Proof.
  intros Hd.
  assert (d = 0 \/ d = 1 \/ d = 2 \/ d = 3 \/ d = 4 \/ d = 5 \/ d = 6 \/
          d = 7 \/ d = 8 \/ d = 9) as Hcases by lia.
  repeat (destruct Hcases as [-> | Hcases]; [reflexivity |]).
  subst d. reflexivity.
Qed.

Lemma number_snoc (cs : list ascii) (c : ascii) :
  number (cs ++ [c]) = (a ← number cs; d ← digit_val c; Some (10 * a + d)).
Proof. unfold number. rewrite foldl_app. reflexivity. Qed.

Lemma number_zfill (w : nat) (n : Z) :
  0 <= n -> number (zfill w n) = Some (n mod 10 ^ Z.of_nat w).
Proof.
  revert n. induction w as [| w IH]; intros n Hn.
  - cbn. rewrite Z.mod_1_r. reflexivity.
  - cbn [zfill]. rewrite number_snoc, IH by (apply Z.div_pos; lia).
    cbn. rewrite digit_val_digit by (pose proof (Z.mod_pos_bound n 10); lia).
    cbn. f_equal.
    rewrite Nat2Z.inj_succ, Z.pow_succ_r by lia.
    rewrite (Z.mul_comm 10), Z.rem_mul_r by lia.
    lia.
Qed.

Lemma number_zfill_small (w : nat) (n : Z) :
  0 <= n < 10 ^ Z.of_nat w -> number (zfill w n) = Some n.
Proof.
  intros Hn. rewrite number_zfill by lia. f_equal. apply Z.mod_small. lia.
Qed.

(** The shape of the fields [isoformat] writes. *)
Lemma zfill_2 (n : Z) : exists a b, zfill 2 n = [a; b].
Proof. cbn. eauto. Qed.

Lemma zfill_4 (n : Z) : exists a b c d, zfill 4 n = [a; b; c; d].
Proof. cbn. eauto 6. Qed.

Lemma zfill_6 (n : Z) : exists a b c d e f, zfill 6 n = [a; b; c; d; e; f].
Proof. cbn. eauto 8. Qed.

Lemma datetime_ok_bounds (t : datetime) :
  datetime_ok t = true ->
  1 <= year t <= 9999 /\ 1 <= month t <= 12 /\ 1 <= day t <= 31 /\
  0 <= hour t <= 23 /\ 0 <= minute t <= 59 /\ 0 <= second t <= 59 /\
  0 <= microsecond t <= 999999.
Proof.
  unfold datetime_ok. rewrite !andb_true_iff, !Z.leb_le.
  assert (days_in_month (year t) (month t) <= 31).
  { unfold days_in_month. repeat case_match; lia. }
  lia.
Qed.

Lemma fromisoformat_isoformat (t : datetime) :
  datetime_ok t = true -> fromisoformat (PyStr (isoformat t)) = Return t.
Proof.
  intros Hok. pose proof (datetime_ok_bounds t Hok) as Hb.
  destruct t as [y mo d h mi s us]; cbn [year month day hour minute second microsecond] in *.
  unfold fromisoformat, isoformat. rewrite list_ascii_of_string_of_list_ascii.
  cbn [year month day hour minute second microsecond].
  destruct (zfill_4 y) as (y1 & y2 & y3 & y4 & Hy).
  destruct (zfill_2 mo) as (m1 & m2 & Hmo).
  destruct (zfill_2 d) as (d1 & d2 & Hd).
  destruct (zfill_2 h) as (h1 & h2 & Hh).
  destruct (zfill_2 mi) as (mi1 & mi2 & Hmi).
  destruct (zfill_2 s) as (s1 & s2 & Hs).
  destruct (zfill_6 us) as (f1 & f2 & f3 & f4 & f5 & f6 & Hus).
  assert (number [y1; y2; y3; y4] = Some y) as Ey
    by (rewrite <- Hy; apply number_zfill_small; cbn; lia).
  assert (number [m1; m2] = Some mo) as Emo
    by (rewrite <- Hmo; apply number_zfill_small; cbn; lia).
  assert (number [d1; d2] = Some d) as Ed
    by (rewrite <- Hd; apply number_zfill_small; cbn; lia).
  assert (number [h1; h2] = Some h) as Eh
    by (rewrite <- Hh; apply number_zfill_small; cbn; lia).
  assert (number [mi1; mi2] = Some mi) as Emi
    by (rewrite <- Hmi; apply number_zfill_small; cbn; lia).
  assert (number [s1; s2] = Some s) as Es
    by (rewrite <- Hs; apply number_zfill_small; cbn; lia).
  assert (number [f1; f2; f3; f4; f5; f6] = Some us) as Eus
    by (rewrite <- Hus; apply number_zfill_small; cbn; lia).
  rewrite Hy, Hmo, Hd, Hh, Hmi, Hs.
  destruct (us =? 0) eqn:Hz.
  - apply Z.eqb_eq in Hz. subst us.
    cbn [app]. rewrite Ey, Emo, Ed, Eh, Emi, Es. cbn. rewrite Hok. reflexivity.
  - rewrite Hus. cbn [app]. rewrite Ey, Emo, Ed, Eh, Emi, Es, Eus. cbn.
    rewrite Hok. reflexivity.
Qed.

(** ** Loading and saving raw data *)

Ltac io_unfold :=
  unfold mbind, io_bind, mret, io_ret, lift, st, set_page, read_file,
    write_file, outcome_bind, outcome_ret.

Lemma load_raw_data_cases (path : string) (w : world) :
  _load_raw_data path w =
  match files w !! path with
  | None | Some Blank => (Return (PyDict []), w)
  | Some (Document v) => (Return v, w)
  | Some (Malformed e) => (Return (PyDict []), report (load_warning path e) w)
  | Some (Unreadable e) => (Return (PyDict []), report (load_error path e) w)
  end.
Proof.
  unfold _load_raw_data. io_unfold.
  destruct (files w !! path) as [[| e | e | v] |]; reflexivity.
Qed.

(** Loading raw data never raises and never touches a file. *)
Lemma load_raw_data_returns (path : string) (w : world) :
  exists v w', _load_raw_data path w = (Return v, w') /\ files w' = files w.
Proof.
  rewrite load_raw_data_cases.
  destruct (files w !! path) as [[| e | e | v] |]; eauto.
Qed.

Lemma save_raw_data_cases (os : write_outcome) (path : string) (data : pyval)
    (w : world) :
  _save_raw_data os path data w =
  match os with
  | WriteOk => (Return true, with_file path (Document data) w)
  | OpenFails e => (Return false, report (save_error path e) w)
  | DumpFails e rest =>
      (Return false, report (save_error path e) (with_file path (residue_file rest) w))
  end.
Proof. destruct os; reflexivity. Qed.

(** ** Loading the records of a user *)

Lemma load_cases (username : string) (w : world) :
  MoodEntriesDataManager_load username w =
  let path := mood_entries_json username in
  match files w !! path with
  | None | Some Blank => (Return [], w)
  | Some (Malformed e) => (Return [], report (load_warning path e) w)
  | Some (Unreadable e) => (Return [], report (load_error path e) w)
  | Some (Document v) =>
      if truthy v
      then (entries ← py_iter v; comprehension from_dict entries, w)
      else (Return [], w)
  end.
Proof.
  unfold MoodEntriesDataManager_load.
  unfold mbind at 1. unfold io_bind. rewrite load_raw_data_cases.
  destruct (files w !! mood_entries_json username) as [[| e | e | v] |];
    try reflexivity.
  cbn zeta. destruct (truthy v); reflexivity.
Qed.

(** C8.  Loading the records of a user whose backing file does not exist or
    has length zero returns the empty list; nothing is raised and nothing is
    reported: the world, with its list of Streamlit calls, is unchanged. *)
Theorem load_absent_or_empty (username : string) (w : world) :
  files w !! mood_entries_json username = None \/
  files w !! mood_entries_json username = Some Blank ->
  MoodEntriesDataManager_load username w = (Return [], w).
Proof.
  intros [Hfile | Hfile]; rewrite load_cases; cbn zeta; rewrite Hfile;
    reflexivity.
Qed.

Lemma load_absent_or_empty_witness :
  MoodEntriesDataManager_load "alice" fresh_world = (Return [], fresh_world) /\
  MoodEntriesDataManager_load "alice" (alice_world Blank) =
    (Return [], alice_world Blank).
Proof.
  split.
  - apply (load_absent_or_empty "alice" fresh_world). left. reflexivity.
  - apply (load_absent_or_empty "alice" (alice_world Blank)). right.
    vm_compute. reflexivity.
Defined.

(** A file that is not valid JSON: a warning is reported, the result is the
    empty list, nothing is raised. *)
Lemma load_invalid_syntax (username err : string) (w : world) :
  files w !! mood_entries_json username = Some (Malformed err) ->
  MoodEntriesDataManager_load username w =
    (Return [], report (load_warning (mood_entries_json username) err) w).
Proof. intros Hfile. rewrite load_cases. cbn zeta. rewrite Hfile. reflexivity. Qed.

(** A file that cannot be read: an error is reported instead. *)
Lemma load_unreadable (username err : string) (w : world) :
  files w !! mood_entries_json username = Some (Unreadable err) ->
  MoodEntriesDataManager_load username w =
    (Return [], report (load_error (mood_entries_json username) err) w).
Proof. intros Hfile. rewrite load_cases. cbn zeta. rewrite Hfile. reflexivity. Qed.

(** C1.  The claim fails on valid JSON that is not a list of records: the
    decoding of the entries is outside the [try] of [_load_raw_data], and its
    exceptions reach the caller with no warning reported.  A record without a
    timestamp raises [KeyError], a record with an empty mood the [ValueError]
    of the constructor. *)
Theorem load_raises_on_malformed_record :
  MoodEntriesDataManager_load "alice"
    (alice_world (Document (PyList [PyDict [("mood", PyStr "Happy")]]))) =
    (Raise (KeyError "timestamp"),
     alice_world (Document (PyList [PyDict [("mood", PyStr "Happy")]]))) /\
  MoodEntriesDataManager_load "alice"
    (alice_world (Document (PyList [PyDict [("mood", PyStr "");
                                           ("note", PyNone);
                                           ("timestamp", PyStr "2024-01-01T09:30:00")]]))) =
    (Raise (ValueError "Mood must be a non-empty string."),
     alice_world (Document (PyList [PyDict [("mood", PyStr "");
                                           ("note", PyNone);
                                           ("timestamp", PyStr "2024-01-01T09:30:00")]]))).
Proof. split; vm_compute; reflexivity. Qed.

(** ** Saving the records of a user *)

(** C2, as stated, fails: when the write raises after [open(path, "w")] has
    truncated the file, the file afterwards holds neither the records it held
    before nor the new ones, and a later load finds no record at all. *)
Lemma save_failure_is_visible :
  let os := DumpFails "No space left on device" NothingWritten in
  let w := alice_world (Document (PyList [to_dict happy_entry])) in
  let after := MoodEntriesDataManager_save os "alice" [happy_entry; tired_entry] w in
  fst after = Return false /\
  ~ atomic_write (mood_entries_json "alice")
      (PyList (map to_dict [happy_entry; tired_entry])) w (snd after) /\
  fst (MoodEntriesDataManager_load "alice" w) = Return [happy_entry] /\
  fst (MoodEntriesDataManager_load "alice" (snd after)) = Return [].
Proof.
  cbn zeta. split; [reflexivity |]. split; [| split; vm_compute; reflexivity].
  intros [Heq | Heq]; vm_compute in Heq; discriminate Heq.
Qed.

(** C2, amended.  Saving never raises.  It returns [true] exactly when the
    operating system carried out the write; the file of the user then holds
    the serialization of the whole list and nothing is reported.  On a failure
    it returns [false] and reports the error with [st.error].  The overwrite
    is not atomic: a failure of [open] leaves the file of the user as it was,
    but a failure after [open] leaves it empty or holding the beginning of
    the text, which does not decode, whatever it held before.  Files of other
    paths are never touched. *)
Theorem save_returns_and_reports (os : write_outcome) (username : string)
    (entries : list MoodEntry) (w : world) :
  let path := mood_entries_json username in
  let data := PyList (map to_dict entries) in
  exists (saved : bool) (w' : world),
    MoodEntriesDataManager_save os username entries w = (Return saved, w') /\
    saved = match os with WriteOk => true | _ => false end /\
    (saved = true ->
       files w' !! path = Some (Document data) /\ ui w' = ui w) /\
    (saved = false ->
       exists err, ui w' = (ui w ++ [save_error path err])%list) /\
    (forall err, os = OpenFails err -> files w' = files w) /\
    (forall err rest, os = DumpFails err rest ->
       files w' !! path = Some (residue_file rest) /\
       (files w' !! path = Some Blank \/
        exists decode_err, files w' !! path = Some (Malformed decode_err)) /\
       fst (MoodEntriesDataManager_load username w') = Return []) /\
    (forall other, other <> path -> files w' !! other = files w !! other) /\
    page w' = page w.
Proof.
  cbn zeta. unfold MoodEntriesDataManager_save. rewrite save_raw_data_cases.
  destruct os as [| e | e rest]; eexists _, _; (split; [reflexivity |]);
    cbn [files ui page report with_file]; (split; [reflexivity |]).
  - split; [intros _; split; [apply lookup_insert_eq | reflexivity] |].
    split; [discriminate |]. split; [discriminate |]. split; [discriminate |].
    split; [| reflexivity].
    intros other Hother. apply lookup_insert_ne. congruence.
  - split; [discriminate |]. split; [eauto |]. split; [reflexivity |].
    split; [discriminate |]. split; reflexivity.
  - assert (<[mood_entries_json username := residue_file rest]> (files w)
              !! mood_entries_json username = Some (residue_file rest)) as Hfile
      by apply lookup_insert_eq.
    split; [discriminate |]. split; [eauto |]. split; [discriminate |].
    split; [| split; [| reflexivity]].
    + intros err rest' [= <- <-]. split; [exact Hfile |]. split.
      * rewrite Hfile. destruct rest; cbn [residue_file]; eauto.
      * rewrite load_cases. cbn zeta. cbn [files report with_file].
        rewrite Hfile. destruct rest; reflexivity.
    + intros other Hother. apply lookup_insert_ne. congruence.
Qed.

(** ** Records survive [to_dict] and [from_dict] *)

Lemma from_dict_to_dict (e : MoodEntry) :
  entry_ok e -> from_dict (to_dict e) = Return e.
Proof.
  intros [Hmood Htime]. destruct e as [m n t]; cbn [mood timestamp] in *.
  unfold from_dict, to_dict. io_unfold.
  cbn -[fromisoformat isoformat].
  rewrite fromisoformat_isoformat by assumption.
  destruct (String.eqb_spec m "") as [-> | _]; [contradiction | reflexivity].
Qed.

(** What the constructor and [from_dict] return is a well-formed record. *)
Lemma MoodEntry_init_ok (m n : pyval) (t : datetime) (e : MoodEntry) :
  MoodEntry_init m n t = Return e ->
  m = PyStr (mood e) /\ mood e <> "" /\ note e = n /\ timestamp e = t.
Proof.
  unfold MoodEntry_init. destruct m as [| | | | s | |]; try discriminate.
  destruct (String.eqb_spec s "") as [| Hne]; [discriminate |].
  intros [= <-]. cbn. auto.
Qed.

Lemma checked_ok (o : option datetime) (t : datetime) :
  checked o = Return t -> datetime_ok t = true.
Proof.
  unfold checked. destruct o as [t' |]; [| discriminate].
  destruct (datetime_ok t') eqn:Hok; [| discriminate].
  intros [= <-]. exact Hok.
Qed.

Lemma fromisoformat_ok (v : pyval) (t : datetime) :
  fromisoformat v = Return t -> datetime_ok t = true.
Proof.
  unfold fromisoformat. intros Hparse.
  repeat case_match; try discriminate; eapply checked_ok; eassumption.
Qed.

Lemma from_dict_ok (data : pyval) (e : MoodEntry) :
  from_dict data = Return e -> entry_ok e.
Proof.
  unfold from_dict. io_unfold.
  destruct (py_getitem data "timestamp") as [raw |]; [| discriminate].
  destruct (fromisoformat raw) as [t |] eqn:Ht; [| discriminate].
  destruct (py_getitem data "mood") as [m |]; [| discriminate].
  destruct (py_get data "note") as [n |]; [| discriminate].
  intros Hinit. apply MoodEntry_init_ok in Hinit as (_ & Hmood & _ & Htime).
  split; [assumption |]. rewrite Htime. eapply fromisoformat_ok; eassumption.
Qed.

Lemma comprehension_ok (datas : list pyval) (entries : list MoodEntry) :
  comprehension from_dict datas = Return entries -> Forall entry_ok entries.
Proof.
  revert entries. induction datas as [| data datas IH]; intros entries.
  - intros [= <-]. constructor.
  - cbn [comprehension]. io_unfold.
    destruct (from_dict data) as [e |] eqn:He; [| discriminate].
    destruct (comprehension from_dict datas) as [es |]; [| discriminate].
    intros [= <-]. constructor; [eapply from_dict_ok; eassumption | auto].
Qed.

Lemma comprehension_to_dict (entries : list MoodEntry) :
  Forall entry_ok entries ->
  comprehension from_dict (map to_dict entries) = Return entries.
Proof.
  induction 1 as [| e es He _ IH]; [reflexivity |].
  cbn [map comprehension]. rewrite from_dict_to_dict, IH by assumption.
  reflexivity.
Qed.

(** C6.  A record that the constructor built, with a non-empty mood and a
    timestamp that is a valid naive datetime, is returned unchanged by
    [from_dict] applied to its [to_dict]: the mood, the note and the
    timestamp, down to the microsecond, are the same. *)
Theorem from_dict_to_dict_roundtrip (m n : pyval) (t : datetime) (r : MoodEntry) :
  MoodEntry_init m n t = Return r ->
  datetime_ok t = true ->
  from_dict (to_dict r) = Return r /\
  (forall r', from_dict (to_dict r) = Return r' ->
     mood r' = mood r /\ note r' = note r /\ timestamp r' = timestamp r).
Proof.
  intros Hinit Hok.
  apply MoodEntry_init_ok in Hinit as (_ & Hmood & _ & Htime).
  assert (from_dict (to_dict r) = Return r) as Hround.
  { apply from_dict_to_dict. split; [assumption | congruence]. }
  split; [exact Hround |].
  intros r' Hr'. rewrite Hround in Hr'. injection Hr' as <-. auto.
Qed.

Lemma from_dict_to_dict_roundtrip_witness :
  from_dict (to_dict tired_entry) = Return tired_entry.
Proof.
  apply (from_dict_to_dict_roundtrip (PyStr "Tired") (PyStr "long day")
           leap_day tired_entry); reflexivity.
Defined.

(** ** Appending records *)

Lemma load_ok (username : string) (w w' : world) (entries : list MoodEntry) :
  MoodEntriesDataManager_load username w = (Return entries, w') ->
  Forall entry_ok entries.
Proof.
  rewrite load_cases. cbn zeta.
  destruct (files w !! mood_entries_json username) as [[| e | e | v] |];
    try (intros [= <- _]; constructor).
  destruct (truthy v); [| intros [= <- _]; constructor].
  unfold mbind, outcome_bind.
  destruct (py_iter v) as [datas |]; [| discriminate].
  intros [= Hcomp _]. eapply comprehension_ok; eassumption.
Qed.

(** Loading what a save wrote gives the saved list back. *)
Lemma load_saved (username : string) (w : world) (entries : list MoodEntry) :
  files w !! mood_entries_json username =
    Some (Document (PyList (map to_dict entries))) ->
  Forall entry_ok entries ->
  MoodEntriesDataManager_load username w = (Return entries, w).
Proof.
  intros Hfile Hok. rewrite load_cases. cbn zeta. rewrite Hfile.
  destruct entries as [| e es]; [reflexivity |].
  cbn [truthy map py_iter]. unfold mbind, outcome_bind.
  change (to_dict e :: map to_dict es) with (map to_dict (e :: es)).
  rewrite comprehension_to_dict by assumption. reflexivity.
Qed.

(** One submission with a write that succeeds: the handler takes the success
    branch, and the file then holds the records loaded before followed by the
    new one. *)
Lemma submit_mood_appends (now : datetime) (username mood note : string)
    (w w0 : world) (old : list MoodEntry) :
  mood <> "" ->
  MoodEntriesDataManager_load username w = (Return old, w0) ->
  exists w',
    submit_mood now WriteOk username mood note w = (Return true, w') /\
    files w' !! mood_entries_json username =
      Some (Document (PyList (map to_dict (old ++ [entry_of mood note now])%list))) /\
    page w' = "dashboard".
Proof.
  intros Hmood Hload. unfold submit_mood, MoodEntry_init.
  destruct (String.eqb_spec mood "") as [| _]; [contradiction |].
  unfold mbind at 1. unfold io_bind at 1. unfold lift at 1.
  unfold mbind at 1. unfold io_bind at 1. rewrite Hload.
  unfold MoodEntriesDataManager_save.
  unfold mbind at 1. unfold io_bind at 1. rewrite save_raw_data_cases.
  io_unfold. eexists. split; [reflexivity |].
  cbn [files page report with_file]. split; [| reflexivity].
  apply lookup_insert_eq.
Qed.

(** A submission followed by a load: the new record comes last. *)
Lemma submit_mood_then_load (now : datetime) (username mood note : string)
    (w w0 : world) (old : list MoodEntry) :
  mood <> "" -> datetime_ok now = true ->
  MoodEntriesDataManager_load username w = (Return old, w0) ->
  exists w',
    submit_mood now WriteOk username mood note w = (Return true, w') /\
    MoodEntriesDataManager_load username w' =
      (Return (old ++ [entry_of mood note now])%list, w').
Proof.
  intros Hmood Hnow Hload.
  destruct (submit_mood_appends now username mood note w w0 old Hmood Hload)
    as (w' & Hsubmit & Hfile & _).
  exists w'. split; [exact Hsubmit |].
  apply load_saved; [exact Hfile |].
  apply Forall_app. split; [eapply load_ok; eassumption |].
  repeat constructor; assumption.
Qed.

(** C7.  For a user whose load returns no record yet, three submissions whose
    saves succeed (non-empty moods, timestamps taken from the clock) each
    take the success branch, and a load after them returns exactly the three
    new records, in the order of the submissions. *)
Theorem three_appends_then_list (username m1 m2 m3 n1 n2 n3 : string)
    (t1 t2 t3 : datetime) (w : world) :
  fst (MoodEntriesDataManager_load username w) = Return [] ->
  m1 <> "" -> m2 <> "" -> m3 <> "" ->
  datetime_ok t1 = true -> datetime_ok t2 = true -> datetime_ok t3 = true ->
  exists w1 w2 w3,
    submit_mood t1 WriteOk username m1 n1 w = (Return true, w1) /\
    submit_mood t2 WriteOk username m2 n2 w1 = (Return true, w2) /\
    submit_mood t3 WriteOk username m3 n3 w2 = (Return true, w3) /\
    MoodEntriesDataManager_load username w3 =
      (Return [entry_of m1 n1 t1; entry_of m2 n2 t2; entry_of m3 n3 t3], w3).
Proof.
  intros Hfresh Hm1 Hm2 Hm3 Ht1 Ht2 Ht3.
  destruct (MoodEntriesDataManager_load username w) as [r0 w0] eqn:Hload0.
  cbn [fst] in Hfresh. subst r0.
  destruct (submit_mood_then_load t1 username m1 n1 w w0 [] Hm1 Ht1 Hload0)
    as (w1 & Hs1 & Hload1).
  destruct (submit_mood_then_load t2 username m2 n2 w1 w1 _ Hm2 Ht2 Hload1)
    as (w2 & Hs2 & Hload2).
  destruct (submit_mood_then_load t3 username m3 n3 w2 w2 _ Hm3 Ht3 Hload2)
    as (w3 & Hs3 & Hload3).
  exists w1, w2, w3. auto.
Qed.

Lemma three_appends_then_list_witness :
  exists w1 w2 w3,
    submit_mood new_year WriteOk "alice" "Happy" "" fresh_world = (Return true, w1) /\
    submit_mood leap_day WriteOk "alice" "Tired" "long day" w1 = (Return true, w2) /\
    submit_mood spring_day WriteOk "alice" "Happy" " " w2 = (Return true, w3) /\
    MoodEntriesDataManager_load "alice" w3 =
      (Return [entry_of "Happy" "" new_year; entry_of "Tired" "long day" leap_day;
               entry_of "Happy" " " spring_day], w3).
Proof.
  apply (three_appends_then_list "alice" "Happy" "Tired" "Happy" "" "long day" " "
           new_year leap_day spring_day fresh_world);
    (reflexivity || discriminate).
Defined.

(** ** Dicts *)

Lemma dict_get_set_eq (d : list (string * pyval)) (key : string) (v : pyval) :
  dict_get (dict_set d key v) key = Some v.
Proof.
  induction d as [| [k x] d IH]; cbn.
  - rewrite String.eqb_refl. reflexivity.
  - destruct (String.eqb k key) eqn:Hk; cbn; rewrite Hk; auto.
Qed.

Lemma dict_get_set_ne (d : list (string * pyval)) (key other : string) (v : pyval) :
  key <> other -> dict_get (dict_set d key v) other = dict_get d other.
Proof.
  intros Hne. induction d as [| [k x] d IH]; cbn.
  - destruct (String.eqb_spec key other); [contradiction | reflexivity].
  - destruct (String.eqb_spec k key) as [-> | Hk]; cbn.
    + destruct (String.eqb_spec key other); [contradiction | reflexivity].
    + rewrite IH. reflexivity.
Qed.



(** ** Registration and authentication *)

Lemma load_raw_data_loaded (path : string) (w : world) :
  _load_raw_data path w = (Return (loaded path w), after_load path w).
Proof.
  rewrite load_raw_data_cases. unfold loaded, after_load.
  destruct (files w !! path) as [[| e | e | v] |]; reflexivity.
Qed.

Lemma files_after_load (path : string) (w : world) :
  files (after_load path w) = files w.
Proof.
  unfold after_load. destruct (files w !! path) as [[| e | e | v] |]; reflexivity.
Qed.

Lemma after_load_document (path : string) (w : world) (v : pyval) :
  files w !! path = Some (Document v) ->
  loaded path w = v /\ after_load path w = w.
Proof. intros Hfile. unfold loaded, after_load. rewrite Hfile. auto. Qed.

Section Auth.
Context `{Bcrypt}.

Lemma register_user_cases (salt : string) (os : write_outcome)
    (username password : string) (w : world) :
  register_user salt os username password w =
  let w0 := after_load users_json w in
  match loaded users_json w with
  | PyDict d =>
      match dict_get d username with
      | Some _ => (Return (false, "Username already exists."), w0)
      | None =>
          match hashpw password salt with
          | Raise e => (Raise e, w0)
          | Return hashed =>
              let users := PyDict (dict_set d username (account_of hashed)) in
              match os with
              | WriteOk =>
                  (Return (true, "Account created successfully! You can now log in."),
                   with_file users_json (Document users) w0)
              | OpenFails e =>
                  (Return (false, "Failed to create account due to a saving error."),
                   report (save_error users_json e) w0)
              | DumpFails e rest =>
                  (Return (false, "Failed to create account due to a saving error."),
                   report (save_error users_json e)
                     (with_file users_json (residue_file rest) w0))
              end
          end
      end
  | other =>
      match py_contains other username with
      | Return true => (Return (false, "Username already exists."), w0)
      | Return false =>
          match hashpw password salt with
          | Raise e => (Raise e, w0)
          | Return _ => (Raise TypeError, w0)
          end
      | Raise e => (Raise e, w0)
      end
  end.
Proof.
  unfold register_user, UserDataManager_load, UserDataManager_save.
  unfold mbind at 1. unfold io_bind at 1. rewrite load_raw_data_loaded.
  cbn zeta. destruct (loaded users_json w) as [| b | n | m e | s | l | d].
  1-6: io_unfold; cbn [py_contains py_setitem];
    repeat match goal with |- context [if ?b then _ else _] => destruct b end;
    try reflexivity; destruct (hashpw password salt); reflexivity.
  io_unfold. cbn [py_contains py_setitem].
  destruct (dict_get d username) as [acct |]; cbn [bool_decide].
  - rewrite bool_decide_eq_true_2 by eauto. reflexivity.
  - rewrite bool_decide_eq_false_2 by (intros [? [=]]).
    destruct (hashpw password salt) as [hashed | e]; [| reflexivity].
    rewrite save_raw_data_cases. destruct os; reflexivity.
Qed.

Lemma authenticate_user_cases (username password : string) (w : world) :
  authenticate_user username password w =
  let w0 := after_load users_json w in
  (present ← py_contains (loaded users_json w) username;
   if negb present then Return (false, "Username not found.")
   else
     account ← py_getitem (loaded users_json w) username;
     stored ← py_getitem account "hashed_password";
     hashed ← py_encode stored;
     ok ← checkpw password hashed;
     Return (if (ok : bool) then (true, "Logged in successfully!")
             else (false, "Incorrect password.")),
   w0).
Proof.
  unfold authenticate_user, UserDataManager_load.
  unfold mbind at 1. unfold io_bind at 1. rewrite load_raw_data_loaded.
  cbn zeta. io_unfold.
  destruct (py_contains (loaded users_json w) username) as [[|] |];
    cbn [negb]; try reflexivity.
  destruct (py_getitem (loaded users_json w) username) as [account |];
    [| reflexivity].
  destruct (py_getitem account "hashed_password") as [stored |]; [| reflexivity].
  destruct (py_encode stored) as [hashed |]; [| reflexivity].
  destruct (checkpw password hashed) as [[|] |]; reflexivity.
Qed.

(** A registration that succeeded found a table without the username, got a
    hash from the library and wrote the table extended by the new account. *)
Lemma register_user_success (salt : string) (os : write_outcome)
    (username password msg : string) (w w1 : world) :
  register_user salt os username password w = (Return (true, msg), w1) ->
  exists d hashed,
    loaded users_json w = PyDict d /\ dict_get d username = None /\
    hashpw password salt = Return hashed /\
    files w1 !! users_json =
      Some (Document (PyDict (dict_set d username (account_of hashed)))).
Proof.
  rewrite register_user_cases. cbn zeta.
  destruct (loaded users_json w) as [| b | n | m e | s | l | d];
    cbn [py_contains];
    try (repeat match goal with
                | |- context [if ?b then _ else _] => destruct b
                | |- context [match ?b with true => _ | false => _ end] => destruct b
                | |- context [match hashpw ?p ?s with _ => _ end] =>
                    destruct (hashpw p s)
                end; discriminate).
  destruct (dict_get d username) as [acct |] eqn:Hget; [discriminate |].
  destruct (hashpw password salt) as [hashed | e] eqn:Hhash; [| discriminate].
  destruct os; try discriminate. intros [= _ <-].
  exists d, hashed. split; [reflexivity |]. split; [exact Hget |].
  split; [reflexivity |]. cbn [files with_file]. apply lookup_insert_eq.
Qed.
End Auth.

Lemma plain_hashpw_returns (password salt hashed : string) :
  plain_hashpw password salt = Return hashed ->
  (password_limit <? String.length password)%nat = false /\
  hashed = "$plain$" +:+ password.
Proof.
  unfold plain_hashpw.
  destruct (password_limit <? String.length password)%nat; [discriminate |].
  intros [= <-]. auto.
Qed.

Lemma plain_checkpw_made (password attempt : string) :
  (password_limit <? String.length attempt)%nat = false ->
  plain_checkpw attempt ("$plain$" +:+ password) =
    Return (String.eqb password attempt).
Proof. unfold plain_checkpw. intros ->. reflexivity. Qed.

Lemma plain_bcrypt_laws : @BcryptLaws plain_bcrypt.
Proof.
  split; cbn [checkpw hashpw plain_bcrypt].
  - intros password salt hashed Hmade.
    apply plain_hashpw_returns in Hmade as [Hshort ->].
    rewrite plain_checkpw_made by exact Hshort.
    rewrite String.eqb_refl. reflexivity.
  - intros password salt hashed attempt salt' hashed' Hmade Htaken.
    apply plain_hashpw_returns in Hmade as [_ ->].
    apply plain_hashpw_returns in Htaken as [Hshort _].
    rewrite plain_checkpw_made by exact Hshort. eauto.
Qed.

Section AuthProperties.
Context `{Bcrypt}.

(** C3.  After a registration of [username] that succeeded, a second
    registration of the same username, whatever the password, the salt and
    the state of the disk, returns the failure "Username already exists."
    and leaves the world as it was: the account stored for the username is
    still the one the first call wrote, with the hash of its password.  The
    match on the username is the equality of strings. *)
Theorem register_twice (username p1 p2 salt1 salt2 msg : string)
    (os1 os2 : write_outcome) (w w1 : world) :
  register_user salt1 os1 username p1 w = (Return (true, msg), w1) ->
  register_user salt2 os2 username p2 w1 =
    (Return (false, "Username already exists."), w1) /\
  (exists hashed,
     hashpw p1 salt1 = Return hashed /\
     stored_account w1 username = Some (account_of hashed)) /\
  stored_account (snd (register_user salt2 os2 username p2 w1)) username =
    stored_account w1 username.
Proof.
  intros Hfirst.
  apply register_user_success in Hfirst as (d & hashed & _ & _ & Hhash & Hfile).
  assert (register_user salt2 os2 username p2 w1 =
            (Return (false, "Username already exists."), w1)) as Hsecond.
  { rewrite register_user_cases. cbn zeta.
    destruct (after_load_document _ _ _ Hfile) as [-> ->].
    rewrite dict_get_set_eq. reflexivity. }
  split; [exact Hsecond |]. split.
  - exists hashed. split; [exact Hhash |].
    unfold stored_account. rewrite Hfile. apply dict_get_set_eq.
  - rewrite Hsecond. reflexivity.
Qed.

(** A username that differs from the registered one, if only by the case of
    a letter, is not taken for a duplicate. *)
Lemma register_other_username (username other p1 p2 salt1 salt2 msg hashed2 : string)
    (os1 : write_outcome) (w w1 : world) :
  register_user salt1 os1 username p1 w = (Return (true, msg), w1) ->
  other <> username ->
  stored_account w other = None ->
  hashpw p2 salt2 = Return hashed2 ->
  fst (register_user salt2 WriteOk other p2 w1) =
    Return (true, "Account created successfully! You can now log in.").
Proof.
  intros Hfirst Hne Hfree Hhash2.
  apply register_user_success in Hfirst as (d & hashed & Hd & _ & _ & Hfile).
  rewrite register_user_cases. cbn zeta.
  destruct (after_load_document _ _ _ Hfile) as [-> ->].
  rewrite dict_get_set_ne by congruence.
  assert (dict_get d other = None) as ->; [| rewrite Hhash2; reflexivity].
  unfold stored_account in Hfree. unfold loaded in Hd.
  destruct (files w !! users_json) as [[| e | e | v] |];
    try (injection Hd as <-; reflexivity).
  subst v. exact Hfree.
Qed.

(** What [authenticate_user] returns for a username whose stored account is
    the one a registration wrote: the verdict of [checkpw] on the stored
    hash, or its exception. *)
Lemma authenticate_stored (d : list (string * pyval))
    (username hashed attempt : string) (w : world) :
  files w !! users_json = Some (Document (PyDict d)) ->
  dict_get d username = Some (account_of hashed) ->
  authenticate_user username attempt w =
    (match checkpw attempt hashed with
     | Return true => Return (true, "Logged in successfully!")
     | Return false => Return (false, "Incorrect password.")
     | Raise e => Raise e
     end, w).
Proof.
  intros Hfile Hacc. rewrite authenticate_user_cases. cbn zeta.
  destruct (after_load_document _ _ _ Hfile) as [-> ->].
  cbn [py_contains py_getitem]. rewrite Hacc.
  rewrite bool_decide_eq_true_2 by eauto. io_unfold. cbn.
  destruct (checkpw attempt hashed) as [[|] | e]; reflexivity.
Qed.

Section WithLaws.
Context `{!BcryptLaws}.

(** C4, amended.  After a registration of [username] with [password] that
    succeeded: authenticating with the same password succeeds; for any
    password the outcome is the verdict of the hash library on the hash
    stored for the username, the failure "Incorrect password." exactly when
    [checkpw] rejects the password, success when it accepts it, and the
    exception of [checkpw] when it raises one; and for any username that has
    no account in the store the outcome is the failure "Username not
    found.".  Of the hash library only this is assumed: [checkpw] accepts
    the password a hash was made from. *)
Theorem authenticate_after_register (username password salt msg : string)
    (os : write_outcome) (w w1 : world) :
  register_user salt os username password w = (Return (true, msg), w1) ->
  authenticate_user username password w1 =
    (Return (true, "Logged in successfully!"), w1) /\
  (exists hashed,
     hashpw password salt = Return hashed /\
     stored_account w1 username = Some (account_of hashed) /\
     forall other,
       authenticate_user username other w1 =
         (match checkpw other hashed with
          | Return true => Return (true, "Logged in successfully!")
          | Return false => Return (false, "Incorrect password.")
          | Raise e => Raise e
          end, w1)) /\
  (forall unknown q, stored_account w1 unknown = None ->
     authenticate_user unknown q w1 =
       (Return (false, "Username not found."), w1)).
Proof.
  intros Hreg.
  apply register_user_success in Hreg as (d & hashed & _ & _ & Hhash & Hfile).
  pose proof (dict_get_set_eq d username (account_of hashed)) as Hacc.
  split; [| split].
  - rewrite (authenticate_stored _ username hashed password w1 Hfile Hacc).
    rewrite (checkpw_own _ _ _ Hhash). reflexivity.
  - exists hashed. split; [exact Hhash |]. split.
    + unfold stored_account. rewrite Hfile. exact Hacc.
    + intros other. exact (authenticate_stored _ username hashed other w1 Hfile Hacc).
  - intros unknown q Hunknown.
    unfold stored_account in Hunknown. rewrite Hfile in Hunknown.
    destruct (after_load_document _ _ _ Hfile) as [Hloaded Hafter].
    rewrite authenticate_user_cases. cbn zeta. rewrite Hloaded, Hafter.
    cbn [py_contains]. rewrite Hunknown.
    rewrite bool_decide_eq_false_2 by (intros [? [=]]). reflexivity.
Qed.
End WithLaws.
End AuthProperties.

Lemma register_twice_witness :
  let w1 := with_file users_json
              (Document (PyDict [("alice", account_of "$plain$x")]))
              fresh_world in
  @register_user plain_bcrypt "salt1" WriteOk "alice" "x" fresh_world =
    (Return (true, "Account created successfully! You can now log in."), w1) /\
  @register_user plain_bcrypt "salt2" WriteOk "alice" "y" w1 =
    (Return (false, "Username already exists."), w1) /\
  stored_account w1 "alice" = Some (account_of "$plain$x").
Proof.
  cbn zeta. split; [reflexivity |].
  pose proof (@register_twice plain_bcrypt "alice" "x" "y" "salt1" "salt2"
                "Account created successfully! You can now log in."
                WriteOk WriteOk fresh_world _ eq_refl)
    as (Hsecond & (hashed & Hhash & Hstored) & _).
  split; [exact Hsecond |].
  injection Hhash as <-. exact Hstored.
Defined.

(** "Alice" can register after "alice". *)
Example register_is_case_sensitive :
  let w1 := with_file users_json
              (Document (PyDict [("alice", account_of "$plain$x")]))
              fresh_world in
  fst (@register_user plain_bcrypt "salt2" WriteOk "Alice" "y" w1) =
    Return (true, "Account created successfully! You can now log in.").
Proof.
  cbn zeta.
  apply (@register_other_username plain_bcrypt "alice" "Alice" "x" "y" "salt1"
           "salt2" "Account created successfully! You can now log in."
           "$plain$y" WriteOk fresh_world);
    [reflexivity | discriminate | reflexivity | reflexivity].
Qed.

(** C4, as stated, fails: after bob has registered with "secret123", a
    password of 73 bytes, which differs from "secret123", does not get the
    failure "Incorrect password.": the check of the hash library raises
    [ValueError], as bcrypt 5 does for a password longer than 72 bytes, and
    [authenticate_user] lets it through. *)
Lemma authenticate_raises_on_long_password :
  let w1 := with_file users_json (Document bob_table) fresh_world in
  @register_user plain_bcrypt "salt" WriteOk "bob" "secret123" fresh_world =
    (Return (true, "Account created successfully! You can now log in."), w1) /\
  long_password <> "secret123" /\
  @authenticate_user plain_bcrypt "bob" long_password w1 =
    (Raise (ValueError "password cannot be longer than 72 bytes"), w1).
Proof.
  cbn zeta. split; [reflexivity |]. split; [discriminate |].
  vm_compute. reflexivity.
Qed.

Lemma authenticate_after_register_witness :
  let w1 := with_file users_json (Document bob_table) fresh_world in
  @register_user plain_bcrypt "salt" WriteOk "bob" "secret123" fresh_world =
    (Return (true, "Account created successfully! You can now log in."), w1) /\
  @authenticate_user plain_bcrypt "bob" "secret123" w1 =
    (Return (true, "Logged in successfully!"), w1) /\
  @authenticate_user plain_bcrypt "bob" "wrong" w1 =
    (Return (false, "Incorrect password."), w1) /\
  @authenticate_user plain_bcrypt "carol" "x" w1 =
    (Return (false, "Username not found."), w1).
Proof.
  cbn zeta. split; [reflexivity |].
  pose proof (@authenticate_after_register plain_bcrypt plain_bcrypt_laws
                "bob" "secret123" "salt"
                "Account created successfully! You can now log in."
                WriteOk fresh_world _ eq_refl)
    as (Hown & (hashed & Hhash & _ & Hother) & Hunknown).
  split; [exact Hown |]. split.
  - pose proof (Hother "wrong") as Hwrong. injection Hhash as <-. exact Hwrong.
  - apply Hunknown. reflexivity.
Defined.

(** ** Failures of the Auth operations as result values *)


(** Nor does [register_user] handle what the hash library raises: with the
    limit of bcrypt 5, a password of 73 bytes makes the registration of a
    free username raise [ValueError], also on a store that is in order. *)
Example register_raises_on_long_password :
  @register_user plain_bcrypt "salt" WriteOk "alice" long_password
     (users_world (Document bob_table)) =
    (Raise (ValueError "password cannot be longer than 72 bytes"),
     users_world (Document bob_table)).
Proof. vm_compute. reflexivity. Qed.

Section AuthResults.
Context `{Bcrypt}.


Lemma wf_store_loaded (w : world) :
  wf_store w -> wf_accounts (loaded users_json w).
Proof.
  unfold wf_store, loaded.
  destruct (files w !! users_json) as [[| e | e | v] |]; auto;
    intros _; exists []; split; auto.
Qed.




End AuthResults.



(** ** Mood categories *)

(** C9.  The category of "Happy" is "Positive", of "Sad" is "Negative", of
    "Neutral" is "Neutral", and the category of every string that is not one
    of the seven moods, such as "Martian", is "Unknown". *)
Theorem category_mapping :
  get_mood_category "Happy" = "Positive" /\
  get_mood_category "Sad" = "Negative" /\
  get_mood_category "Neutral" = "Neutral" /\
  get_mood_category "Martian" = "Unknown" /\
  (forall mood, mood ∉ mood_options -> get_mood_category mood = "Unknown").
Proof.
  repeat split; try reflexivity.
  intros mood Hout. unfold mood_options in Hout.
  unfold get_mood_category, MOOD_CATEGORIES. cbn [category_scan existsb].
  repeat match goal with
         | |- context [String.eqb mood ?s] =>
             destruct (String.eqb_spec mood s) as [-> | _]; [set_solver |]
         end.
  reflexivity.
Qed.

(** C10.  The category is defined for every string and is one of "Positive",
    "Neutral", "Negative" and "Unknown"; "Excited" is "Positive", and
    "Angry", "Anxious" and "Tired" are "Negative". *)
Theorem category_total :
  (forall mood,
     get_mood_category mood ∈ ["Positive"; "Neutral"; "Negative"; "Unknown"]) /\
  get_mood_category "Excited" = "Positive" /\
  get_mood_category "Angry" = "Negative" /\
  get_mood_category "Anxious" = "Negative" /\
  get_mood_category "Tired" = "Negative".
Proof.
  repeat split; try reflexivity.
  intros mood. unfold get_mood_category, MOOD_CATEGORIES.
  cbn [category_scan existsb].
  repeat match goal with
         | |- context [String.eqb mood ?s] => destruct (String.eqb mood s)
         end; cbn [orb]; set_solver.
Qed.

(** * Further properties of the code *)

(** ** Raw data and the files of the users *)

(** X1.  [_load_raw_data] catches everything: whatever the file at the path
    is, it returns a value and raises nothing, leaves the files and the page
    as they were, and makes at most one Streamlit call. *)
Theorem raw_load_never_raises (path : string) (w : world) :
  exists v w',
    _load_raw_data path w = (Return v, w') /\
    files w' = files w /\ page w' = page w /\
    (ui w' = ui w \/ exists c, ui w' = (ui w ++ [c])%list).
Proof.
  rewrite load_raw_data_cases.
  destruct (files w !! path) as [[| e | e | v] |]; eexists _, _;
    (split; [reflexivity |]); cbn [files ui page report]; eauto 6.
Qed.

(** X2.  A record file that is not valid JSON: the load reports the warning
    of [_load_raw_data], returns the empty list and leaves the file as it
    is. *)
Theorem load_warns_on_invalid_syntax (username err : string) (w : world) :
  files w !! mood_entries_json username = Some (Malformed err) ->
  exists w',
    MoodEntriesDataManager_load username w = (Return [], w') /\
    ui w' = (ui w ++ [load_warning (mood_entries_json username) err])%list /\
    files w' = files w.
Proof.
  intros Hfile. rewrite (load_invalid_syntax username err w Hfile).
  eexists. split; [reflexivity |]. split; reflexivity.
Qed.

Lemma load_warns_on_invalid_syntax_witness :
  exists w',
    MoodEntriesDataManager_load "alice" (alice_world (Malformed "Expecting value")) =
      (Return [], w') /\
    ui w' = [load_warning "mood_entries_alice.json" "Expecting value"] /\
    files w' = files (alice_world (Malformed "Expecting value")).
Proof.
  apply (load_warns_on_invalid_syntax "alice" "Expecting value"
           (alice_world (Malformed "Expecting value"))).
  vm_compute. reflexivity.
Defined.

Lemma load_only_reads (username : string) (w : world) :
  files (snd (MoodEntriesDataManager_load username w)) = files w /\
  page (snd (MoodEntriesDataManager_load username w)) = page w.
Proof.
  rewrite load_cases. cbn zeta.
  destruct (files w !! mood_entries_json username) as [[| e | e | v] |];
    try (split; reflexivity).
  destruct (truthy v); split; reflexivity.
Qed.

(** X3.  Loading the records of a user never writes: the files and the page
    are the same afterwards, also when the decoding of an entry raises. *)
Theorem load_keeps_files (username : string) (w : world) :
  files (snd (MoodEntriesDataManager_load username w)) = files w /\
  page (snd (MoodEntriesDataManager_load username w)) = page w.
Proof. apply load_only_reads. Qed.

(** X4.  Every record a load returns has a non-empty mood and a timestamp
    that is a valid date and time: the constructor and [fromisoformat] have
    checked them. *)
Theorem loaded_records_are_well_formed (username : string) (w w' : world)
    (entries : list MoodEntry) :
  MoodEntriesDataManager_load username w = (Return entries, w') ->
  forall e, e ∈ entries -> mood e <> "" /\ datetime_ok (timestamp e) = true.
Proof.
  intros Hload e He. apply load_ok in Hload.
  rewrite Forall_forall in Hload. exact (Hload e He).
Qed.

Lemma loaded_records_are_well_formed_witness :
  mood tired_entry <> "" /\ datetime_ok (timestamp tired_entry) = true.
Proof.
  apply (loaded_records_are_well_formed "alice"
           (alice_world (Document (PyList [to_dict happy_entry; to_dict tired_entry])))
           (alice_world (Document (PyList [to_dict happy_entry; to_dict tired_entry])))
           [happy_entry; tired_entry]).
  - vm_compute. reflexivity.
  - set_solver.
Defined.

(** X5.  What a successful save wrote is what the next load returns, record
    by record and in the same order, whatever the file held before; the empty
    list included. *)
Theorem save_then_load (username : string) (entries : list MoodEntry) (w : world) :
  Forall entry_ok entries ->
  exists w',
    MoodEntriesDataManager_save WriteOk username entries w = (Return true, w') /\
    MoodEntriesDataManager_load username w' = (Return entries, w').
Proof.
  intros Hok. unfold MoodEntriesDataManager_save. rewrite save_raw_data_cases.
  eexists. split; [reflexivity |].
  apply load_saved; [| exact Hok].
  cbn [files with_file]. apply lookup_insert_eq.
Qed.

Lemma save_then_load_witness :
  exists w',
    MoodEntriesDataManager_save WriteOk "alice" [happy_entry; tired_entry]
      (alice_world (Malformed "Expecting value")) = (Return true, w') /\
    MoodEntriesDataManager_load "alice" w' = (Return [happy_entry; tired_entry], w').
Proof.
  apply (save_then_load "alice" [happy_entry; tired_entry]
           (alice_world (Malformed "Expecting value"))).
  repeat constructor; discriminate.
Defined.

(** X6.  Saving back what a load returned loses nothing: the next load
    returns the same records, although the file is rewritten from the
    records and not copied. *)
Theorem resave_is_lossless (username : string) (entries : list MoodEntry)
    (w w0 : world) :
  MoodEntriesDataManager_load username w = (Return entries, w0) ->
  exists w',
    MoodEntriesDataManager_save WriteOk username entries w0 = (Return true, w') /\
    MoodEntriesDataManager_load username w' = (Return entries, w').
Proof.
  intros Hload. unfold MoodEntriesDataManager_save. rewrite save_raw_data_cases.
  eexists. split; [reflexivity |].
  apply load_saved; [| eapply load_ok; eassumption].
  cbn [files with_file]. apply lookup_insert_eq.
Qed.

Lemma resave_is_lossless_witness :
  let w := alice_world (Document (PyList
             [PyDict [("timestamp", PyStr "2024-01-01T09:30:00");
                      ("mood", PyStr "Happy"); ("weather", PyStr "rain")]])) in
  exists w',
    MoodEntriesDataManager_save WriteOk "alice" [happy_entry] w = (Return true, w') /\
    MoodEntriesDataManager_load "alice" w' = (Return [happy_entry], w').
Proof.
  cbn zeta.
  apply (resave_is_lossless "alice" [happy_entry]
           (alice_world (Document (PyList
              [PyDict [("timestamp", PyStr "2024-01-01T09:30:00");
                       ("mood", PyStr "Happy"); ("weather", PyStr "rain")]])))).
  vm_compute. reflexivity.
Defined.

(** ** One file per user *)

Lemma list_ascii_of_string_app (s t : string) :
  list_ascii_of_string (s +:+ t) =
    (list_ascii_of_string s ++ list_ascii_of_string t)%list.
Proof.
  induction s as [| c s IH]; [reflexivity |].
  change (String c s +:+ t) with (String c (s +:+ t)).
  cbn [list_ascii_of_string]. rewrite IH. reflexivity.
Qed.

Lemma string_app_inv_tail (s s' t : string) : s +:+ t = s' +:+ t -> s = s'.
Proof.
  intros Heq. apply (f_equal list_ascii_of_string) in Heq.
  rewrite !list_ascii_of_string_app in Heq. apply app_inv_tail in Heq.
  apply (f_equal string_of_list_ascii) in Heq.
  rewrite !string_of_list_ascii_of_string in Heq. exact Heq.
Qed.

Lemma mood_entries_json_inj (u u' : string) :
  mood_entries_json u = mood_entries_json u' -> u = u'.
Proof.
  unfold mood_entries_json. intros Heq.
  cbv [String.append] in Heq. fold String.append in Heq.
  injection Heq as Heq. apply (string_app_inv_tail u u' ".json"). exact Heq.
Qed.

Lemma mood_entries_json_not_users (u : string) : mood_entries_json u <> users_json.
Proof. unfold mood_entries_json, users_json. cbv [String.append]. discriminate. Qed.

(** A load depends on the file of the user only. *)
Lemma load_depends_on_own_file (username : string) (w1 w2 : world) :
  files w1 !! mood_entries_json username = files w2 !! mood_entries_json username ->
  fst (MoodEntriesDataManager_load username w1) =
    fst (MoodEntriesDataManager_load username w2).
Proof.
  intros Hsame. rewrite !load_cases. cbn zeta. rewrite Hsame.
  destruct (files w2 !! mood_entries_json username) as [[| e | e | v] |];
    try reflexivity.
  destruct (truthy v); reflexivity.
Qed.

Lemma save_keeps_other_paths (os : write_outcome) (username : string)
    (entries : list MoodEntry) (w : world) (other : string) :
  other <> mood_entries_json username ->
  files (snd (MoodEntriesDataManager_save os username entries w)) !! other =
    files w !! other.
Proof.
  intros Hother. unfold MoodEntriesDataManager_save.
  rewrite save_raw_data_cases.
  destruct os; cbn [snd files report with_file]; try reflexivity;
    apply lookup_insert_ne; congruence.
Qed.

(** X7.  The records of two different users are kept apart: a save for one
    user, whether it succeeds or fails, does not change what a load returns
    for another, because different usernames without path separators give
    different file names. *)
Theorem users_do_not_share_records (os : write_outcome) (username other : string)
    (entries : list MoodEntry) (w : world) :
  path_free username = true -> path_free other = true ->
  other <> username ->
  fst (MoodEntriesDataManager_load other
         (snd (MoodEntriesDataManager_save os username entries w))) =
    fst (MoodEntriesDataManager_load other w).
Proof.
  intros _ _ Hother. apply load_depends_on_own_file.
  apply save_keeps_other_paths. intros Heq.
  apply mood_entries_json_inj in Heq. contradiction.
Qed.

Lemma users_do_not_share_records_witness :
  fst (MoodEntriesDataManager_load "alice"
         (snd (MoodEntriesDataManager_save
                 (DumpFails "No space left on device" NothingWritten) "alice2"
                 [tired_entry]
                 (alice_world (Document (PyList [to_dict happy_entry])))))) =
    Return [happy_entry].
Proof.
  rewrite (users_do_not_share_records
             (DumpFails "No space left on device" NothingWritten) "alice2" "alice"
             [tired_entry] (alice_world (Document (PyList [to_dict happy_entry]))));
    [vm_compute; reflexivity | reflexivity | reflexivity | discriminate].
Defined.

Section Separation.
Context `{Bcrypt}.

(** X8.  Records and accounts never overwrite each other: no username
    without path separators makes the record file coincide with the account
    file, so a save of records leaves the account file as it is, and a
    registration leaves the record file of every such user as it is. *)
Theorem records_and_accounts_are_separate (os : write_outcome)
    (username password salt : string) (entries : list MoodEntry) (w : world) :
  path_free username = true ->
  files (snd (MoodEntriesDataManager_save os username entries w)) !! users_json =
    files w !! users_json /\
  (forall anyone,
     path_free anyone = true ->
     files (snd (register_user salt os username password w)) !!
       mood_entries_json anyone = files w !! mood_entries_json anyone).
Proof.
  intros _. split.
  - apply save_keeps_other_paths. intros Heq.
    symmetry in Heq. exact (mood_entries_json_not_users username Heq).
  - intros anyone _. pose proof (mood_entries_json_not_users anyone) as Hne.
    rewrite register_user_cases. cbn zeta.
    pose proof (files_after_load users_json w) as Hload.
    destruct (loaded users_json w) as [| b | n | m e | s | l | d];
      cbn [py_contains];
      repeat match goal with
             | |- context [match ?b with true => _ | false => _ end] => destruct b
             | |- context [match dict_get ?d ?u with _ => _ end] =>
                 destruct (dict_get d u)
             | |- context [match hashpw ?p ?s with _ => _ end] =>
                 destruct (hashpw p s)
             | |- context [match os with _ => _ end] => destruct os
             end;
      cbn [snd files report with_file];
      rewrite ?lookup_insert_ne by congruence; rewrite Hload; reflexivity.
Qed.
End Separation.

Lemma records_and_accounts_are_separate_witness :
  let w := with_file users_json (Document bob_table)
             (alice_world (Document (PyList [to_dict happy_entry]))) in
  files (snd (MoodEntriesDataManager_save WriteOk "alice" [tired_entry] w)) !!
    users_json = files w !! users_json /\
  files (snd (@register_user plain_bcrypt "salt" WriteOk "alice" "x" w)) !!
    mood_entries_json "alice" = files w !! mood_entries_json "alice".
Proof.
  cbn zeta.
  pose proof (@records_and_accounts_are_separate plain_bcrypt WriteOk "alice" "x"
                "salt" [tired_entry]
                (with_file users_json (Document bob_table)
                   (alice_world (Document (PyList [to_dict happy_entry]))))
                eq_refl) as [Hsave Hregister].
  split; [exact Hsave | apply Hregister; reflexivity].
Defined.

(** ** The submit handler at its edges *)

(** With an empty mood the handler stops at the constructor: the
    [ValueError] reaches the caller before anything is loaded, saved or
    reported. *)
Lemma submit_empty_mood_raises (now : datetime) (os : write_outcome)
    (username note : string) (w : world) :
  submit_mood now os username "" note w =
    (Raise (ValueError "Mood must be a non-empty string."), w).
Proof. reflexivity. Qed.

(** X10.  When the save fails, the handler takes the failure branch: it
    returns [false], the page stays the same, and exactly two errors are
    reported after whatever the load reported, the one of [_save_raw_data]
    and "Failed to save mood.".  If it was [open] that failed, the files are
    as before. *)
Theorem submit_reports_failed_save (now : datetime) (os : write_outcome)
    (username mood note : string) (w w0 : world) (old : list MoodEntry) :
  mood <> "" ->
  os <> WriteOk ->
  MoodEntriesDataManager_load username w = (Return old, w0) ->
  exists w' err,
    submit_mood now os username mood note w = (Return false, w') /\
    ui w' = (ui w0 ++ [save_error (mood_entries_json username) err;
                        st_error "Failed to save mood."])%list /\
    page w' = page w /\
    (forall e, os = OpenFails e -> files w' = files w).
Proof.
  intros Hmood Hos Hload.
  pose proof (load_only_reads username w) as [Hfiles Hpage].
  rewrite Hload in Hfiles, Hpage. cbn [snd] in Hfiles, Hpage.
  unfold submit_mood, MoodEntry_init.
  destruct (String.eqb_spec mood "") as [| _]; [contradiction |].
  unfold mbind at 1. unfold io_bind at 1. unfold lift at 1.
  unfold mbind at 1. unfold io_bind at 1. rewrite Hload.
  unfold MoodEntriesDataManager_save.
  unfold mbind at 1. unfold io_bind at 1. rewrite save_raw_data_cases.
  destruct os as [| e | e rest]; [contradiction | |]; io_unfold;
    eexists _, _; (split; [reflexivity |]); cbn [files ui page report with_file];
    rewrite <- ?app_assoc; repeat split; try assumption; try discriminate.
  intros e' _. exact Hfiles.
Qed.

Lemma submit_reports_failed_save_witness :
  exists w' err,
    submit_mood leap_day (OpenFails "Permission denied") "alice" "Tired" "long day"
      (alice_world (Document (PyList [to_dict happy_entry]))) = (Return false, w') /\
    ui w' = [save_error "mood_entries_alice.json" err;
             st_error "Failed to save mood."] /\
    page w' = "dashboard" /\
    (forall e, OpenFails "Permission denied" = OpenFails e ->
       files w' = files (alice_world (Document (PyList [to_dict happy_entry])))).
Proof.
  apply (submit_reports_failed_save leap_day (OpenFails "Permission denied")
           "alice" "Tired" "long day"
           (alice_world (Document (PyList [to_dict happy_entry])))
           (alice_world (Document (PyList [to_dict happy_entry])))
           [happy_entry]);
    [discriminate | discriminate | vm_compute; reflexivity].
Defined.

(** X11.  One submission whose save succeeds adds exactly one record: a load
    afterwards returns the records that were there before, unchanged and in
    their order, followed by the new record with the submitted mood, the
    normalized note and the time of the clock; the page is then the
    dashboard. *)
Theorem submit_appends_one_record (now : datetime) (username mood note : string)
    (w w0 : world) (old : list MoodEntry) :
  mood <> "" -> datetime_ok now = true ->
  MoodEntriesDataManager_load username w = (Return old, w0) ->
  exists w',
    submit_mood now WriteOk username mood note w = (Return true, w') /\
    MoodEntriesDataManager_load username w' =
      (Return (old ++ [entry_of mood note now])%list, w') /\
    page w' = "dashboard".
Proof.
  intros Hmood Hnow Hload.
  destruct (submit_mood_appends now username mood note w w0 old Hmood Hload)
    as (w' & Hsubmit & Hfile & Hpage).
  exists w'. split; [exact Hsubmit |]. split; [| exact Hpage].
  apply load_saved; [exact Hfile |].
  apply Forall_app. split; [eapply load_ok; eassumption |].
  repeat constructor; assumption.
Qed.

Lemma submit_appends_one_record_witness :
  exists w',
    submit_mood leap_day WriteOk "alice" "Tired" "long day"
      (alice_world (Document (PyList [to_dict happy_entry]))) = (Return true, w') /\
    MoodEntriesDataManager_load "alice" w' =
      (Return [happy_entry; tired_entry], w') /\
    page w' = "dashboard".
Proof.
  apply (submit_appends_one_record leap_day "alice" "Tired" "long day"
           (alice_world (Document (PyList [to_dict happy_entry])))
           (alice_world (Document (PyList [to_dict happy_entry])))
           [happy_entry]);
    [discriminate | reflexivity | vm_compute; reflexivity].
Defined.

(** ** Accounts *)

Section Accounts.
Context `{Bcrypt}.

(** X12.  Authentication only reads: whatever the account file holds and
    whatever the outcome, an exception included, the files and the page are
    the same afterwards. *)
Theorem authenticate_keeps_files (username password : string) (w : world) :
  files (snd (authenticate_user username password w)) = files w /\
  page (snd (authenticate_user username password w)) = page w.
Proof.
  rewrite authenticate_user_cases. cbn zeta. cbn [snd].
  unfold after_load.
  destruct (files w !! users_json) as [[| e | e | v] |]; split; reflexivity.
Qed.

Lemma authenticate_user_success (username password msg : string)
    (w w' : world) :
  authenticate_user username password w = (Return (true, msg), w') ->
  exists account hashed,
    stored_account w username = Some account /\
    dict_get_str account "hashed_password" = Some hashed /\
    checkpw password hashed = Return true /\
    msg = "Logged in successfully!".
Proof.
  rewrite authenticate_user_cases. cbn zeta. unfold stored_account, loaded.
  io_unfold.
  destruct (files w !! users_json) as [[| e | e | v] |];
    try (cbn; discriminate).
  destruct v as [| b | n | m e | s | l | d]; cbn [py_contains py_getitem];
    try discriminate;
    try (repeat match goal with
                | |- context [negb ?b] => destruct b; cbn [negb]
                end; discriminate).
  destruct (dict_get d username) as [account |] eqn:Haccount.
  - rewrite bool_decide_eq_true_2 by eauto. cbn [negb].
    destruct account as [| | | | | | fields]; cbn [py_getitem]; try discriminate.
    destruct (dict_get fields "hashed_password") as [[| | | | hashed | |] |]
      eqn:Hfield; cbn [py_encode]; try discriminate.
    destruct (checkpw password hashed) as [[|] |] eqn:Hcheck; try discriminate.
    intros [= <- _]. exists (PyDict fields), hashed.
    cbn [dict_get_str]. rewrite Hfield. auto.
  - rewrite bool_decide_eq_false_2 by (intros [? [=]]). cbn [negb]. discriminate.
Qed.

(** X13.  Authentication succeeds only for a username that has an account in
    the table whose stored hash [checkpw] accepts for the password given. *)
Theorem authenticate_success_is_vouched (username password msg : string)
    (w w' : world) :
  authenticate_user username password w = (Return (true, msg), w') ->
  exists account hashed,
    stored_account w username = Some account /\
    dict_get_str account "hashed_password" = Some hashed /\
    checkpw password hashed = Return true /\
    msg = "Logged in successfully!".
Proof. apply authenticate_user_success. Qed.

(** X14.  A registration that succeeds adds one account and keeps the others:
    afterwards the table holds the new account, with the hash the library
    made of the password, under the username and, under every other username,
    what it held before. *)
Theorem register_adds_one_account (salt : string) (os : write_outcome)
    (username password msg : string) (w w1 : world) :
  register_user salt os username password w = (Return (true, msg), w1) ->
  exists hashed,
    hashpw password salt = Return hashed /\
    forall other,
      stored_account w1 other =
        if decide (other = username) then Some (account_of hashed)
        else stored_account w other.
Proof.
  intros Hreg.
  apply register_user_success in Hreg as (d & hashed & Hd & _ & Hhash & Hfile).
  exists hashed. split; [exact Hhash |]. intros other.
  unfold stored_account at 1. rewrite Hfile.
  destruct (decide (other = username)) as [-> | Hne].
  - apply dict_get_set_eq.
  - rewrite dict_get_set_ne by congruence.
    unfold stored_account. unfold loaded in Hd.
    destruct (files w !! users_json) as [[| e | e | v] |];
      try (injection Hd as <-; reflexivity).
    subst v. reflexivity.
Qed.

(** X15.  A registration that fails, because the username is taken or
    because the file could not be opened for writing, leaves every file as it
    was.  (A write that breaks off after the file was opened does not.) *)
Theorem failed_register_keeps_files (salt : string) (os : write_outcome)
    (username password msg : string) (w w' : world) :
  register_user salt os username password w = (Return (false, msg), w') ->
  (forall err rest, os <> DumpFails err rest) ->
  files w' = files w.
Proof.
  rewrite register_user_cases. cbn zeta. intros Hreg Hos.
  pose proof (files_after_load users_json w) as Hload.
  destruct (loaded users_json w) as [| b | n | m e | s | l | d];
    cbn [py_contains] in Hreg;
    repeat match type of Hreg with
           | context [match ?b with true => _ | false => _ end] => destruct b
           | context [match dict_get ?d ?u with _ => _ end] => destruct (dict_get d u)
           | context [match hashpw ?p ?s with _ => _ end] => destruct (hashpw p s)
           | context [match os with _ => _ end] => destruct os
           end;
    try discriminate; try (injection Hreg as _ <-; exact Hload).
  exfalso. eapply Hos. reflexivity.
Qed.
End Accounts.

Lemma authenticate_success_is_vouched_witness :
  exists account hashed,
    stored_account (users_world (Document bob_table)) "bob" = Some account /\
    dict_get_str account "hashed_password" = Some hashed /\
    @checkpw plain_bcrypt "secret123" hashed = Return true /\
    "Logged in successfully!" = "Logged in successfully!".
Proof.
  apply (@authenticate_success_is_vouched plain_bcrypt "bob" "secret123"
           "Logged in successfully!"
           (users_world (Document bob_table)) (users_world (Document bob_table))).
  vm_compute. reflexivity.
Defined.

Lemma register_adds_one_account_witness :
  let w := users_world (Document bob_table) in
  let w1 := snd (@register_user plain_bcrypt "pepper" WriteOk "alice" "x" w) in
  stored_account w1 "alice" = Some (account_of "$plain$x") /\
  stored_account w1 "bob" = stored_account w "bob".
Proof.
  cbn zeta.
  pose proof (@register_adds_one_account plain_bcrypt "pepper" WriteOk "alice" "x"
                "Account created successfully! You can now log in."
                (users_world (Document bob_table)) _ eq_refl)
    as (hashed & Hhash & Hall).
  injection Hhash as <-.
  split; [exact (Hall "alice") | exact (Hall "bob")].
Defined.

Lemma failed_register_keeps_files_witness :
  let w := users_world (Document bob_table) in
  files (snd (@register_user plain_bcrypt "pepper" (OpenFails "Permission denied")
                "alice" "x" w)) = files w.
Proof.
  cbn zeta.
  apply (@failed_register_keeps_files plain_bcrypt "pepper"
           (OpenFails "Permission denied") "alice" "x"
           "Failed to create account due to a saving error."
           (users_world (Document bob_table)));
    [reflexivity | discriminate].
Defined.

(** ** The forms and the routing *)

Lemma route_cases (s : session_state) (w : world) :
  route s w =
  let redirect target :=
    (Return None,
     report st_rerun {| files := files w; ui := ui w; page := target |}) in
  if logged_in s then
    if String.eqb (page w) "welcome_authenticated"
    then (Return (Some welcome_authenticated_page), w)
    else if String.eqb (page w) "mood_input" then (Return (Some mood_input_page), w)
    else if String.eqb (page w) "dashboard" then (Return (Some dashboard_page), w)
    else redirect "welcome_authenticated"
  else
    if String.eqb (page w) "home" then (Return (Some home_page), w)
    else if String.eqb (page w) "login" then (Return (Some login_page), w)
    else if String.eqb (page w) "signup" then (Return (Some signup_page), w)
    else redirect "home".
Proof.
  unfold route, get_page. io_unfold. cbn zeta.
  destruct (logged_in s);
    repeat match goal with
           | |- context [String.eqb (page w) ?p] => destruct (String.eqb (page w) p)
           end; reflexivity.
Qed.

(** X16.  The routing logic calls a page function only if it fits the login
    state: the welcome, mood input and dashboard pages for a logged-in
    session only, the home, login and sign-up pages for a logged-out one
    only; the function called is the one the page is named after, and the
    world is untouched. *)
Theorem route_guards_pages (s : session_state) (f : page_function) (w w' : world) :
  route s w = (Return (Some f), w') ->
  protected_page f = logged_in s /\ page w = page_name f /\ w' = w.
Proof.
  rewrite route_cases. cbn zeta.
  destruct (logged_in s);
    repeat match goal with
           | |- context [String.eqb (page w) ?p] =>
               destruct (String.eqb_spec (page w) p)
           end;
    intros [= <- <-] || discriminate; auto.
Qed.

Lemma route_guards_pages_witness :
  protected_page dashboard_page = true /\
  page (alice_world Blank) = page_name dashboard_page /\
  alice_world Blank = alice_world Blank.
Proof.
  apply (route_guards_pages {| logged_in := true; session_username := Some "alice" |}
           dashboard_page (alice_world Blank) (alice_world Blank)).
  reflexivity.
Defined.


(** X18.  After the logout callback nobody is logged in, the files are as
    before, and the next run of the script shows the home page, whatever page
    was shown before. *)
Theorem logout_leads_home (w : world) :
  exists w',
    logout w = (Return initial_session, w') /\ files w' = files w /\
    route initial_session w' = (Return (Some home_page), w').
Proof.
  eexists. split; [reflexivity |]. split; [reflexivity |].
  rewrite route_cases. reflexivity.
Qed.

Section FormProperties.
Context `{Bcrypt}.

Lemma login_submit_cases (username password : string) (s : session_state)
    (w : world) :
  login_submit username password s w =
  match authenticate_user username password w with
  | (Return (true, message), w') =>
      (Return {| logged_in := true; session_username := Some username |},
       report st_rerun (report (st_success message)
         {| files := files w'; ui := ui w'; page := "welcome_authenticated" |}))
  | (Return (false, message), w') => (Return s, report (st_error message) w')
  | (Raise e, w') => (Raise e, w')
  end.
Proof.
  unfold login_submit. unfold mbind at 1. unfold io_bind at 1.
  destruct (authenticate_user username password w) as [[[[|] message] | e] w'];
    reflexivity.
Qed.

Lemma signup_submit_cases (salt : string) (os : write_outcome)
    (new_username new_password confirm_password : string) (w : world) :
  signup_submit salt os new_username new_password confirm_password w =
  if String.eqb new_username "" || String.eqb new_password "" ||
     String.eqb confirm_password ""
  then (Return tt, report (st_warning "Please fill in all fields.") w)
  else if negb (String.eqb new_password confirm_password)
  then (Return tt, report (st_error "Passwords do not match.") w)
  else
    match register_user salt os new_username new_password w with
    | (Return (true, message), w') =>
        (Return tt,
         report st_rerun
           {| files := files (report (st_success message) w');
              ui := ui (report (st_success message) w'); page := "login" |})
    | (Return (false, message), w') => (Return tt, report (st_error message) w')
    | (Raise e, w') => (Raise e, w')
    end.
Proof.
  unfold signup_submit.
  destruct (String.eqb new_username "" || String.eqb new_password "" ||
            String.eqb confirm_password ""); [reflexivity |].
  destruct (negb (String.eqb new_password confirm_password)); [reflexivity |].
  unfold mbind at 1. unfold io_bind at 1.
  destruct (register_user salt os new_username new_password w)
    as [[[[|] message] | e] w']; reflexivity.
Qed.

(** X19.  A sign-up form with an empty field, or with two passwords that
    differ, is turned down before the account table is looked at: the handler
    makes one Streamlit call, the warning or the error, and leaves the files
    and the page alone.  In particular no account is ever created for an
    empty username or with an empty password. *)
Theorem signup_rejects_incomplete_form (salt : string) (os : write_outcome)
    (new_username new_password confirm_password : string) (w : world) :
  new_username = "" \/ new_password = "" \/ confirm_password = "" \/
  new_password <> confirm_password ->
  exists c,
    signup_submit salt os new_username new_password confirm_password w =
      (Return tt, report c w) /\
    (c = st_warning "Please fill in all fields." \/
     c = st_error "Passwords do not match.") /\
    files (report c w) = files w /\ page (report c w) = page w.
Proof.
  intros Hform. rewrite signup_submit_cases.
  destruct (String.eqb_spec new_username "") as [| Hu]; cbn [orb]; [eauto 6 |].
  destruct (String.eqb_spec new_password "") as [| Hp]; cbn [orb]; [eauto 6 |].
  destruct (String.eqb_spec confirm_password "") as [| Hc]; cbn [orb]; [eauto 6 |].
  destruct (String.eqb_spec new_password confirm_password) as [Heq | Hne];
    cbn [negb]; [| eauto 6].
  destruct Hform as [? | [? | [? | ?]]]; contradiction.
Qed.

(** X20.  The login handler changes the session only by logging in the
    username it was given, and only when the account table vouches for the
    password: either the session, the page and the files are as before, or
    the session is logged in under that username, the page is the welcome
    page, and the username has a stored hash that [checkpw] accepts. *)
Theorem login_only_when_vouched (username password : string)
    (s s' : session_state) (w w' : world) :
  login_submit username password s w = (Return s', w') ->
  (s' = s /\ page w' = page w /\ files w' = files w) \/
  (s' = {| logged_in := true; session_username := Some username |} /\
   page w' = "welcome_authenticated" /\ files w' = files w /\
   exists account hashed,
     stored_account w username = Some account /\
     dict_get_str account "hashed_password" = Some hashed /\
     checkpw password hashed = Return true).
Proof.
  rewrite login_submit_cases.
  pose proof (authenticate_user_cases username password w) as Hcases.
  cbn zeta in Hcases.
  destruct (authenticate_user username password w)
    as [[[[|] message] | e] w1] eqn:Hauth; [| | discriminate].
  - intros [= <- <-]. right.
    assert (w1 = after_load users_json w) as -> by congruence.
    cbn [files page report]. rewrite files_after_load.
    destruct (authenticate_user_success _ _ _ _ _ Hauth)
      as (account & hashed & Hacc & Hhash & Hcheck & _).
    eauto 10.
  - intros [= <- <-]. left.
    assert (w1 = after_load users_json w) as -> by congruence.
    cbn [files page report]. rewrite files_after_load.
    unfold after_load.
    destruct (files w !! users_json) as [[| ? | ? | ?] |]; auto.
Qed.

(** X21.  The two keys of the session stay in step: the initial session has
    nobody logged in and no username, and the login handler and the logout
    callback keep "logged in exactly when a username is set". *)
Theorem session_stays_consistent :
  session_ok initial_session /\
  (forall username password s s' w w',
     session_ok s ->
     login_submit username password s w = (Return s', w') -> session_ok s') /\
  (forall s' w w', logout w = (Return s', w') -> session_ok s').
Proof.
  assert (session_ok initial_session) as Hinit.
  { split; [discriminate | intros [? [=]]]. }
  split; [exact Hinit |]. split.
  - intros username password s s' w w' Hs. rewrite login_submit_cases.
    destruct (authenticate_user username password w)
      as [[[[|] message] | e] w1]; [| | discriminate].
    + intros [= <- _]. split; cbn; eauto.
    + intros [= <- _]. exact Hs.
  - intros s' w w' [= <- _]. exact Hinit.
Qed.
End FormProperties.

Lemma signup_rejects_incomplete_form_witness :
  exists c,
    @signup_submit plain_bcrypt "salt" WriteOk "" "secret123" "secret123"
       fresh_world = (Return tt, report c fresh_world) /\
    (c = st_warning "Please fill in all fields." \/
     c = st_error "Passwords do not match.") /\
    files (report c fresh_world) = files fresh_world /\
    page (report c fresh_world) = page fresh_world.
Proof.
  apply (@signup_rejects_incomplete_form plain_bcrypt "salt" WriteOk ""
           "secret123" "secret123" fresh_world).
  left. reflexivity.
Defined.

Lemma login_only_when_vouched_witness :
  let w := users_world (Document bob_table) in
  exists w',
    @login_submit plain_bcrypt "bob" "secret123" initial_session w =
      (Return {| logged_in := true; session_username := Some "bob" |}, w') /\
    page w' = "welcome_authenticated" /\
    exists account hashed,
      stored_account w "bob" = Some account /\
      dict_get_str account "hashed_password" = Some hashed /\
      @checkpw plain_bcrypt "secret123" hashed = Return true.
Proof.
  cbn zeta. eexists. split; [vm_compute; reflexivity |].
  destruct (@login_only_when_vouched plain_bcrypt "bob" "secret123"
              initial_session _ (users_world (Document bob_table))
              _ eq_refl) as [[Hsame _] | (_ & Hpage & _ & Hvouch)].
  - discriminate Hsame.
  - split; [exact Hpage | exact Hvouch].
Defined.

Section SignupLogin.
Context `{Bcrypt} `{!BcryptLaws}.

Lemma free_username (username : string) (w : world) :
  wf_store w -> stored_account w username = None ->
  exists d, loaded users_json w = PyDict d /\ dict_get d username = None.
Proof.
  intros Hwf Hfree. pose proof (wf_store_loaded w Hwf) as (d & Hd & _).
  exists d. split; [exact Hd |].
  unfold stored_account in Hfree. unfold loaded in Hd.
  destruct (files w !! users_json) as [[| e | e | v] |];
    try (injection Hd as <-; reflexivity).
  subst v. exact Hfree.
Qed.

(** X22.  Signing up and logging in fit together.  With a well-formed account
    store in which the username is free, a sign-up form with a non-empty
    username and a non-empty password typed twice, for which the library
    returns a hash and the save succeeds, leads to the login page; from there
    the login form with the same password logs the user in under that
    username and leads to the welcome page, and the login form with a
    password that [checkpw] rejects for that hash leaves the session logged
    out on the login page.  Of the hash library only this is assumed:
    [checkpw] accepts the password a hash was made from. *)
Theorem signup_then_login (salt username password hashed : string) (w : world) :
  username <> "" -> password <> "" ->
  wf_store w -> stored_account w username = None ->
  hashpw password salt = Return hashed ->
  exists w1 w2,
    signup_submit salt WriteOk username password password w = (Return tt, w1) /\
    route initial_session w1 = (Return (Some login_page), w1) /\
    login_submit username password initial_session w1 =
      (Return {| logged_in := true; session_username := Some username |}, w2) /\
    route {| logged_in := true; session_username := Some username |} w2 =
      (Return (Some welcome_authenticated_page), w2) /\
    (forall other, checkpw other hashed = Return false ->
       exists w3,
         login_submit username other initial_session w1 =
           (Return initial_session, w3) /\
         route initial_session w3 = (Return (Some login_page), w3)).
Proof.
  intros Hu Hp Hwf Hfree Hhash.
  destruct (free_username username w Hwf Hfree) as (d & Hd & Hget).
  rewrite signup_submit_cases.
  destruct (String.eqb_spec username "") as [| _]; [contradiction |].
  destruct (String.eqb_spec password "") as [| _]; [contradiction |].
  cbn [orb]. rewrite String.eqb_refl. cbn [negb].
  rewrite register_user_cases. cbn zeta. rewrite Hd, Hget, Hhash.
  set (w1 := report st_rerun _).
  assert (files w1 !! users_json =
            Some (Document (PyDict (dict_set d username (account_of hashed)))))
    as Hfile by (subst w1; cbn [files report with_file]; apply lookup_insert_eq).
  assert (page w1 = "login") as Hpage by reflexivity.
  pose proof (dict_get_set_eq d username (account_of hashed)) as Hacc.
  eexists w1, _. split; [reflexivity |].
  split; [rewrite route_cases, Hpage; reflexivity |].
  split.
  { rewrite login_submit_cases.
    rewrite (authenticate_stored _ username hashed password w1 Hfile Hacc).
    rewrite (checkpw_own _ _ _ Hhash). reflexivity. }
  split; [rewrite route_cases; reflexivity |].
  intros other Hother. eexists. split.
  - rewrite login_submit_cases.
    rewrite (authenticate_stored _ username hashed other w1 Hfile Hacc).
    rewrite Hother. reflexivity.
  - rewrite route_cases. cbn [page report logged_in initial_session].
    rewrite Hpage. reflexivity.
Qed.
End SignupLogin.

Lemma signup_then_login_witness :
  exists w1 w2,
    @signup_submit plain_bcrypt "salt" WriteOk "bob" "secret123" "secret123"
       fresh_world = (Return tt, w1) /\
    route initial_session w1 = (Return (Some login_page), w1) /\
    @login_submit plain_bcrypt "bob" "secret123" initial_session w1 =
      (Return {| logged_in := true; session_username := Some "bob" |}, w2) /\
    route {| logged_in := true; session_username := Some "bob" |} w2 =
      (Return (Some welcome_authenticated_page), w2) /\
    exists w3,
      @login_submit plain_bcrypt "bob" "wrong" initial_session w1 =
        (Return initial_session, w3) /\
      route initial_session w3 = (Return (Some login_page), w3).
Proof.
  destruct (@signup_then_login plain_bcrypt plain_bcrypt_laws "salt" "bob"
              "secret123" "$plain$secret123" fresh_world)
    as (w1 & w2 & Hsignup & Hroute1 & Hlogin & Hroute2 & Hother);
    [discriminate | discriminate | exact I | reflexivity | reflexivity |].
  exists w1, w2. repeat (split; [assumption |]).
  apply Hother. reflexivity.
Defined.

(** ** Categories and the moods on offer *)

(** X23.  The fallback "Unknown" is returned exactly for the strings that are
    not among the moods the select box offers: every mood a user can pick has
    a proper category. *)
Theorem unknown_iff_not_offered (mood : string) :
  get_mood_category mood = "Unknown" <-> mood ∉ mood_options.
Proof.
  split.
  - intros Hcat Hin. unfold mood_options in Hin.
    rewrite !elem_of_cons, elem_of_nil in Hin.
    repeat (destruct Hin as [-> | Hin]; [vm_compute in Hcat; discriminate |]).
    exact Hin.
  - intros Hout. unfold mood_options in Hout.
    unfold get_mood_category, MOOD_CATEGORIES. cbn [category_scan existsb].
    repeat match goal with
           | |- context [String.eqb mood ?s] =>
               destruct (String.eqb_spec mood s) as [-> | _]; [set_solver |]
           end.
    reflexivity.
Qed.

(** X24.  The table of categories is consistent with the scan: no mood is
    listed under two categories, so a mood listed under a category gets that
    category, whichever item the loop meets first. *)
Theorem category_of_listed_mood (category mood : string) (moods : list string) :
  (category, moods) ∈ MOOD_CATEGORIES -> mood ∈ moods ->
  get_mood_category mood = category.
Proof.
  unfold MOOD_CATEGORIES. rewrite !elem_of_cons, elem_of_nil.
  intros [[= -> ->] | [[= -> ->] | [[= -> ->] | []]]];
    rewrite !elem_of_cons, elem_of_nil; intros Hin;
    repeat (destruct Hin as [-> | Hin]; [reflexivity |]); destruct Hin.
Qed.

Lemma category_of_listed_mood_witness : get_mood_category "Anxious" = "Negative".
Proof.
  apply (category_of_listed_mood "Negative" "Anxious"
           ["Sad"; "Angry"; "Anxious"; "Tired"]); set_solver.
Defined.

(** ** The history, newest first *)

Lemma tuple_ltb_irrefl (a : list Z) : tuple_ltb a a = false.
Proof.
  induction a as [| x a IH]; [reflexivity |].
  cbn. rewrite Z.ltb_irrefl, Z.eqb_refl, IH. reflexivity.
Qed.

Lemma tuple_ltb_asym (a b : list Z) :
  tuple_ltb a b = true -> tuple_ltb b a = false.
Proof.
  revert b. induction a as [| x a IH]; intros [| y b]; cbn; try reflexivity;
    try discriminate.
  intros Hlt. apply orb_true_iff in Hlt as [Hlt | Hlt].
  - apply Z.ltb_lt in Hlt.
    rewrite (proj2 (Z.ltb_ge y x)) by lia.
    rewrite (proj2 (Z.eqb_neq y x)) by lia. reflexivity.
  - apply andb_true_iff in Hlt as [Heq Hlt]. apply Z.eqb_eq in Heq. subst y.
    rewrite Z.ltb_irrefl, Z.eqb_refl, (IH b Hlt). reflexivity.
Qed.

(** [a >= b >= c] gives [a >= c], for tuples of one length. *)
Lemma tuple_not_ltb_trans (a b c : list Z) :
  List.length a = List.length b -> List.length b = List.length c ->
  tuple_ltb a b = false -> tuple_ltb b c = false -> tuple_ltb a c = false.
Proof.
  revert b c. induction a as [| x a IH]; intros [| y b] [| z c]; cbn;
    try discriminate; try reflexivity.
  intros [= Hab] [= Hbc] H1 H2.
  apply orb_false_iff in H1 as [Hxy H1], H2 as [Hyz H2].
  apply Z.ltb_ge in Hxy, Hyz. apply andb_false_iff in H1, H2.
  apply orb_false_iff. split; [apply Z.ltb_ge; lia |].
  apply andb_false_iff.
  destruct (Z.eq_dec x z) as [-> | Hne]; [right | left; apply Z.eqb_neq; exact Hne].
  assert (y = z) by lia. subst y.
  destruct H1 as [H1 | H1]; [apply Z.eqb_neq in H1; contradiction |].
  destruct H2 as [H2 | H2]; [apply Z.eqb_neq in H2; contradiction |].
  eapply IH; eassumption.
Qed.

Lemma datetime_not_ltb_trans (t1 t2 t3 : datetime) :
  datetime_ltb t1 t2 = false -> datetime_ltb t2 t3 = false ->
  datetime_ltb t1 t3 = false.
Proof. apply tuple_not_ltb_trans; reflexivity. Qed.

Lemma insert_newest_first_perm (e : MoodEntry) (l : list MoodEntry) :
  insert_newest_first e l ≡ₚ e :: l.
Proof.
  induction l as [| e' l IH]; cbn [insert_newest_first]; [reflexivity |].
  destruct (datetime_ltb (timestamp e) (timestamp e')); [| reflexivity].
  rewrite IH. apply Permutation_swap.
Qed.

Lemma sort_perm (l : list MoodEntry) : sort_newest_first l ≡ₚ l.
Proof.
  induction l as [| e l IH]; [reflexivity |].
  cbn [sort_newest_first foldr]. fold (sort_newest_first l).
  rewrite insert_newest_first_perm, IH. reflexivity.
Qed.

(** X25.  The sort of the history loses and invents nothing: the sorted list
    is a rearrangement of the loaded entries, duplicates included. *)
Theorem sort_newest_first_permutation (all_entries : list MoodEntry) :
  sort_newest_first all_entries ≡ₚ all_entries.
Proof. apply sort_perm. Qed.

Lemma insert_newest_first_sorted (e : MoodEntry) (l : list MoodEntry) :
  StronglySorted
    (fun a b => datetime_ltb (timestamp a) (timestamp b) = false) l ->
  StronglySorted
    (fun a b => datetime_ltb (timestamp a) (timestamp b) = false)
    (insert_newest_first e l).
Proof.
  induction 1 as [| e' l Hsorted IH Hall]; cbn [insert_newest_first].
  - repeat constructor.
  - destruct (datetime_ltb (timestamp e) (timestamp e')) eqn:Hlt.
    + constructor; [exact IH |].
      rewrite insert_newest_first_perm. constructor; [| exact Hall].
      apply tuple_ltb_asym. exact Hlt.
    + constructor; [constructor; assumption |].
      constructor; [exact Hlt |].
      eapply Forall_impl; [exact Hall |].
      intros later Hlater. cbn in Hlater.
      eapply datetime_not_ltb_trans; eassumption.
Qed.

(** X26.  The history is in the order newest first: in the sorted list no
    entry has a timestamp before the timestamp of an entry further down. *)
Theorem sort_newest_first_sorted (all_entries : list MoodEntry) :
  StronglySorted
    (fun a b => datetime_ltb (timestamp a) (timestamp b) = false)
    (sort_newest_first all_entries).
Proof.
  induction all_entries as [| e l IH]; [constructor |].
  cbn [sort_newest_first foldr]. apply insert_newest_first_sorted. exact IH.
Qed.

Lemma insert_newest_first_filter (t : datetime) (e : MoodEntry)
    (l : list MoodEntry) :
  filter (fun x => timestamp x = t) (insert_newest_first e l) =
    filter (fun x => timestamp x = t) (e :: l).
Proof.
  induction l as [| e' l IH]; [reflexivity |].
  cbn [insert_newest_first].
  destruct (datetime_ltb (timestamp e) (timestamp e')) eqn:Hlt; [| reflexivity].
  rewrite filter_cons, IH, !filter_cons.
  destruct (decide (timestamp e' = t)) as [He' |];
    destruct (decide (timestamp e = t)) as [He |]; try reflexivity.
  exfalso. unfold datetime_ltb in Hlt.
  rewrite He, He', tuple_ltb_irrefl in Hlt. discriminate.
Qed.

(** X27.  The sort is stable: the entries that carry the same timestamp come
    out in the order in which they were loaded. *)
Theorem sort_newest_first_stable (t : datetime) (all_entries : list MoodEntry) :
  filter (fun e => timestamp e = t) (sort_newest_first all_entries) =
    filter (fun e => timestamp e = t) all_entries.
Proof.
  induction all_entries as [| e l IH]; [reflexivity |].
  cbn [sort_newest_first foldr].
  rewrite insert_newest_first_filter, !filter_cons.
  fold (sort_newest_first l). rewrite IH. reflexivity.
Qed.

(** ** Registration on an unusable account file *)

Section FreshStart.
Context `{Bcrypt}.

(** X28.  "Starting fresh" is literal: when the account file exists but does
    not decode and the library returns a hash for the password, a
    registration whose save succeeds reports the warning and replaces the
    file by a table that holds the new account and nothing else. *)
Theorem register_on_corrupt_file_starts_fresh
    (salt username password hashed err : string) (w : world) :
  files w !! users_json = Some (Malformed err) ->
  hashpw password salt = Return hashed ->
  exists w',
    register_user salt WriteOk username password w =
      (Return (true, "Account created successfully! You can now log in."), w') /\
    files w' !! users_json =
      Some (Document (PyDict [(username, account_of hashed)])) /\
    ui w' = (ui w ++ [load_warning users_json err])%list.
Proof.
  intros Hfile Hhash. rewrite register_user_cases. cbn zeta.
  unfold loaded, after_load. rewrite Hfile. cbn [dict_get dict_set].
  rewrite Hhash.
  eexists. split; [reflexivity |]. split; [| reflexivity].
  cbn [files with_file]. apply lookup_insert_eq.
Qed.
End FreshStart.

Lemma register_on_corrupt_file_starts_fresh_witness :
  exists w',
    @register_user plain_bcrypt "salt" WriteOk "bob" "secret123"
       (users_world (Malformed "Expecting value")) =
      (Return (true, "Account created successfully! You can now log in."), w') /\
    files w' !! users_json = Some (Document bob_table) /\
    ui w' = [load_warning users_json "Expecting value"].
Proof.
  apply (@register_on_corrupt_file_starts_fresh plain_bcrypt "salt" "bob"
           "secret123" "$plain$secret123" "Expecting value"
           (users_world (Malformed "Expecting value")));
    [vm_compute; reflexivity | reflexivity].
Defined.
